(** * Polytrage: opportunity scoring, position sizing, policy filter, detector

    A shallow embedding of the quantitative core of the three agents
    ([scanner_agent.py], [analyzer_agent.py], [executor_agent.py]), of the
    agents around it and of their coordinator ([coordinator.py]), with the
    properties their specification states and others the code shows.

    Conventions of the embedding.
    - A Python [float] is an exact rational ([Q]); a decimal literal of the
      source denotes the decimal it spells.  Rounding, infinities and NaN
      are outside the model.
    - A Python [str] is a [string]; [dict]s used as structs are records, a
      key read with [.get(k, d)] being an [option] field; [dict]s whose
      keys are tested at run time are [gmap string _].
    - An exception is a value: a function that can raise returns a
      [Py.result].
    - A loop that never ends is taken one turn at a time, and a turn is
      taken as a whole. *)

From Stdlib Require Import QArith Qround Qminmax Qpower Lqa ZArith Lia Bool.
From Stdlib Require Import String Ascii List HexadecimalString.
From stdpp Require Import base option strings gmap pretty.

Declare Scope py_scope.
Delimit Scope py_scope with py.

(** ** The fragment of Python the agents use *)

Module Py.

Local Open Scope Q_scope.

Inductive exn : Type :=
| ZeroDivisionError
| KeyError (key : string)
| Exception (msg : string).

Inductive result (A : Type) : Type :=
| Ok (a : A)
| Raise (e : exn).

Arguments Ok {A} a.
Arguments Raise {A} e.

Definition bind {A B : Type} (m : result A) (k : A -> result B) : result B :=
  match m with
  | Ok a => k a
  | Raise e => Raise e
  end.

#[global] Instance result_ret : MRet result := fun A a => Ok a.
#[global] Instance result_bind : MBind result := fun A B k m => bind m k.

(** [str(e)] for the exceptions above. *)
Definition str_exn (e : exn) : string :=
  match e with
  | ZeroDivisionError => "float division by zero"
  | KeyError k => "'" ++ k ++ "'"
  | Exception msg => msg
  end.

(** Comparisons of floats, as booleans. *)
Definition lt (x y : Q) : bool := negb (Qle_bool y x).
Definition le (x y : Q) : bool := Qle_bool x y.
Definition gt (x y : Q) : bool := lt y x.
Definition ge (x y : Q) : bool := le y x.

(** [x / y] raises on a zero divisor. *)
Definition truediv (x y : Q) : result Q :=
  if Qeq_bool y 0 then Raise ZeroDivisionError else Ok (x / y).

(** [max(a, b)] and [min(a, b)] keep the first argument unless the second
    is strictly better. *)
Definition max (a b : Q) : Q := if gt b a then b else a.
Definition min (a b : Q) : Q := if lt b a then b else a.

(** [int(x)] truncates towards zero. *)
Definition int (x : Q) : Z := if le 0 x then Qfloor x else Qceiling x.

(** [hex(n)[2:]]: the digits for [n >= 0]; for [n < 0] the slice cuts the
    sign and the [0] of ["-0x.."]. *)
Definition hex_digits (n : Z) : string :=
  NilZero.string_of_uint (N.to_hex_uint (Z.abs_N n)).

Definition hex_from_2 (n : Z) : string :=
  if (n <? 0)%Z then "x" ++ hex_digits n else hex_digits n.

(** [s.lower()] and [s.upper()] on the ASCII letters. *)
Definition lower_ascii (c : ascii) : ascii :=
  let n := nat_of_ascii c in
  if ((65 <=? n) && (n <=? 90))%nat then ascii_of_nat (n + 32) else c.

Definition upper_ascii (c : ascii) : ascii :=
  let n := nat_of_ascii c in
  if ((97 <=? n) && (n <=? 122))%nat then ascii_of_nat (n - 32) else c.

Fixpoint map_string (f : ascii -> ascii) (s : string) : string :=
  match s with
  | EmptyString => EmptyString
  | String c s' => String (f c) (map_string f s')
  end.

Definition lower : string -> string := map_string lower_ascii.
Definition upper : string -> string := map_string upper_ascii.

(** [needle in haystack] for strings. *)
Fixpoint contains (needle haystack : string) : bool :=
  String.prefix needle haystack ||
  match haystack with
  | EmptyString => false
  | String _ rest => contains needle rest
  end.

(** What [needle in haystack] decides: some text before and some text
    after the needle make up the haystack. *)
Definition occurs_in (s t : string) : Prop :=
  exists before after : string, t = (before ++ s ++ after)%string.

(** [bool(s)] of a string and of a list. *)
Definition truthy_str (s : string) : bool :=
  match s with EmptyString => false | _ => true end.

Definition truthy_list {A : Type} (l : list A) : bool :=
  match l with nil => false | _ => true end.

(** [round(x)] to the nearest integer, ties to even, as the [.1f]
    conversion needs it. *)
Definition round_half_even (x : Q) : Z :=
  let f := Qfloor x in
  let r := x - inject_Z f in
  if lt r 0.5 then f
  else if gt r 0.5 then (f + 1)%Z
  else if Z.even f then f else (f + 1)%Z.

(** [f"{x:.1f}"]. *)
Definition format_1f (x : Q) : string :=
  let n := Z.abs (round_half_even (x * 10)) in
  (if lt x 0 then "-" else "")
  ++ pretty (n / 10)%Z ++ "." ++ pretty (n mod 10)%Z.

End Py.

Notation "x <? y" := (Py.lt x y) : py_scope.
Notation "x <=? y" := (Py.le x y) : py_scope.
Notation "x >? y" := (Py.gt x y) : py_scope.
Notation "x >=? y" := (Py.ge x y) : py_scope.


Local Open Scope Q_scope.
Local Open Scope py_scope.

(** ** analyzer_agent.py *)

Module Analyzer.

Import Py.

Record OpportunityAnalysis : Type := {
  market : string;
  profit_margin : Q;
  confidence : Q;
  risk_score : Q;
  recommendation : string;
  bet_size : Q;
  reasoning : list string
}.

(** The keys of the [opportunity] dict that [analyze_opportunity] reads. *)
Record Opportunity : Type := {
  opp_market : string;
  opp_profit_margin : Q;
  opp_confidence : Q
}.

Record MarketPatterns : Type := {
  crypto_volatility : Q;
  prediction_market_accuracy : Q;
  volume_confidence_threshold : Q
}.

Record RiskParameters : Type := {
  max_profit_margin : Q;
  min_confidence : Q;
  max_risk_score : Q
}.

Record HistoricalPerformance : Type := {
  accuracy : Q;
  avg_margin : Q
}.

Record KnowledgeBase : Type := {
  market_patterns : MarketPatterns;
  risk_parameters : RiskParameters;
  historical_performance : gmap string HistoricalPerformance
}.

(** [MeTTaReasoning.__init__] *)
Definition knowledge_base : KnowledgeBase := {|
  market_patterns := {|
    crypto_volatility := 0.8;
    prediction_market_accuracy := 0.7;
    volume_confidence_threshold := 100000 |};
  risk_parameters := {|
    max_profit_margin := 15.0;
    min_confidence := 60.0;
    max_risk_score := 70.0 |};
  historical_performance :=
    <["btc_predictions" := {| accuracy := 0.72; avg_margin := 4.2 |}]>
    (<["eth_predictions" := {| accuracy := 0.68; avg_margin := 3.8 |}]> ∅)
|}.

(** [d[k]] on the table of historical performance. *)
Definition getitem (d : gmap string HistoricalPerformance) (k : string)
  : result HistoricalPerformance :=
  match d !! k with
  | Some v => Ok v
  | None => Raise (KeyError k)
  end.

(** [k in d] *)
Definition has_key (d : gmap string HistoricalPerformance) (k : string) : bool :=
  bool_decide (is_Some (d !! k)).

Section Engine.

Variable self : KnowledgeBase.

Definition _generate_recommendation (profit_margin confidence risk_score : Q)
  : string :=
  if (profit_margin >? 5.0) && (confidence >? 70.0)
     && (risk_score <? max_risk_score (risk_parameters self))
  then "EXECUTE"
  else if (profit_margin >? 3.0) && (confidence >? 60.0)
          && (risk_score <? 80.0)
  then "MONITOR"
  else "SKIP".

Definition _calculate_kelly_bet_size (profit_margin confidence risk_score : Q)
  : result Q :=
  win_probability ← truediv confidence 100.0;
  pm100 ← truediv profit_margin 100.0;
  let odds := 1 + pm100 in
  let b := odds - 1 in
  let p := win_probability in
  let q := 1 - p in
  if (b <=? 0) || (p <=? 0) then Ok 0.0
  else
    kelly_fraction ← truediv (b * p - q) b;
    rs100 ← truediv risk_score 100.0;
    let risk_adjustment := max 0.1 (1.0 - rs100) in
    let adjusted_fraction := kelly_fraction * risk_adjustment in
    Ok (min (max adjusted_fraction 0.0) 0.10).

(** The two locals the rules of [analyze_opportunity] update. *)
Record Score : Type := {
  score_risk : Q;
  score_reasoning : list string
}.

Definition bump (delta : Q) (line : string) (s : Score) : Score :=
  {| score_risk := score_risk s + delta;
     score_reasoning := score_reasoning s ++ [line] |}.

Definition note (line : string) (s : Score) : Score :=
  {| score_risk := score_risk s;
     score_reasoning := score_reasoning s ++ [line] |}.

(** Rule 1: profit margin analysis. *)
Definition rule_profit_margin (profit_margin : Q) (s : Score) : Score :=
  if profit_margin >? max_profit_margin (risk_parameters self) then
    bump 30 ("High profit margin (" ++ format_1f profit_margin
             ++ "%) may indicate pricing error") s
  else if profit_margin >? 8.0 then
    bump 10 ("Strong profit margin (" ++ format_1f profit_margin
             ++ "%) detected") s
  else
    note ("Moderate profit margin (" ++ format_1f profit_margin ++ "%)") s.

(** Rule 2: confidence assessment. *)
Definition rule_confidence (confidence : Q) (s : Score) : Score :=
  if confidence <? min_confidence (risk_parameters self) then
    bump 25 ("Low confidence (" ++ format_1f confidence
             ++ "%) in opportunity") s
  else if confidence >? 85 then
    bump (-10) ("High confidence (" ++ format_1f confidence
                ++ "%) in opportunity") s
  else s.

Definition asset_type_of (market : string) : string :=
  if contains "bitcoin" (lower market) || contains "btc" (lower market)
  then "btc" else "eth".

(** Rule 3: asset-specific historical performance. *)
Definition rule_asset_history (market : string) (s : Score) : result Score :=
  let asset_type := asset_type_of market in
  if has_key (historical_performance self) asset_type then
    hist_perf ← getitem (historical_performance self)
                        (asset_type ++ "_predictions");
    if accuracy hist_perf >? 0.7 then
      Ok (bump (-5) ("Strong historical accuracy for " ++ upper asset_type
                     ++ " predictions") s)
    else
      Ok (bump 10 ("Moderate historical accuracy for " ++ upper asset_type
                   ++ " predictions") s)
  else Ok s.

(** Rule 4: market volatility consideration. *)
Definition rule_volatility (s : Score) : Score :=
  let volatility := crypto_volatility (market_patterns self) in
  if volatility >? 0.7 then
    bump 15 "High crypto market volatility increases risk" s
  else s.

(** The score after rules 1 to 4. *)
Definition run_rules (market : string) (profit_margin confidence : Q)
  : result Score :=
  let s := {| score_risk := 0.0; score_reasoning := [] |} in
  let s := rule_profit_margin profit_margin s in
  let s := rule_confidence confidence s in
  s ← rule_asset_history market s;
  Ok (rule_volatility s).

(** Rules 1 to 5: the score with the recommendation and its line. *)
Definition recommend (market : string) (profit_margin confidence : Q)
  : result (Score * string) :=
  s ← run_rules market profit_margin confidence;
  let recommendation :=
    _generate_recommendation profit_margin confidence (score_risk s) in
  Ok (note ("Recommendation: " ++ recommendation) s, recommendation).

Definition analyze_opportunity (opportunity : Opportunity)
  : result OpportunityAnalysis :=
  let market := opp_market opportunity in
  let profit_margin := opp_profit_margin opportunity in
  let confidence := opp_confidence opportunity in
  '(s, recommendation) ← recommend market profit_margin confidence;
  (* Rule 6: the bet size; nothing is appended to the reasoning *)
  bet_size ← _calculate_kelly_bet_size profit_margin confidence (score_risk s);
  Ok {| market := market;
        profit_margin := profit_margin;
        confidence := confidence;
        risk_score := score_risk s;
        recommendation := recommendation;
        bet_size := bet_size;
        reasoning := score_reasoning s |}.

End Engine.

(** The opportunity of [demonstrate_metta_reasoning]. *)
Definition demo_opportunity : Opportunity := {|
  opp_market := "Will Bitcoin reach $100,000 by December 31, 2024?";
  opp_profit_margin := 6.2;
  opp_confidence := 85.0
|}.

End Analyzer.

(** ** executor_agent.py *)

Module Executor.

Import Py.

Record TradeExecution : Type := {
  trade_id : string;
  market : string;
  bet_size : Q;
  expected_profit : Q;
  tx_hash : option string;
  status : string;
  timestamp : Q;
  error_message : option string
}.

(** The [recommendation] dict of a [trade_recommendation] message. *)
Record Recommendation : Type := {
  rec_market : string;
  rec_action : string;
  rec_bet_size : Q;
  rec_profit_margin : Q;
  rec_confidence : Q;
  rec_risk_score : Q;
  rec_reasoning : list string
}.

(** The [user_policy] dict; the keys read with [.get] may be absent. *)
Record UserPolicy : Type := {
  user_address : string;
  bankroll : Q;
  max_bet_size : Q;
  min_bet_size : option Q;
  min_profit_margin : option Q;
  min_confidence : option Q;
  max_risk_score : option Q;
  approved_markets : option (list string);
  is_active : bool
}.

(** What the execution layer does that can be observed from outside. *)
Inductive Event : Type :=
| VincentExecuting (market : string) (bet_size expected_profit : Q)
| VincentExecuted (tx_hash : string)
| VincentFailed (msg : string).

(** The wall clock read by [time.time()] and the events so far. *)
Record World : Type := {
  clock : Q;
  events : list Event
}.

Definition emit (e : Event) (w : World) : World :=
  {| clock := clock w; events := events w ++ [e] |}.

Definition sleep (d : Q) (w : World) : World :=
  {| clock := clock w + d; events := events w |}.

(** [any(market in text for market in approved_markets)] *)
Definition any_in (approved_markets : list string) (text : string) : bool :=
  existsb (fun market => contains market text) approved_markets.

Definition _check_policy_compliance
  (recommendation : Recommendation) (user_policy : UserPolicy) : bool :=
  if rec_profit_margin recommendation
       <? default 3.0 (min_profit_margin user_policy) then false
  else if rec_confidence recommendation
       <? default 60.0 (min_confidence user_policy) then false
  else if rec_risk_score recommendation
       >? default 70.0 (max_risk_score user_policy) then false
  else
    let approved_markets := default [] (approved_markets user_policy) in
    if truthy_list approved_markets
       && negb (any_in approved_markets (rec_market recommendation))
    then false
    else true.

Definition _check_user_delegation (user_address : string) : bool := true.

Definition _encode_polymarket_bet
  (recommendation : Recommendation) (bet_size : Q) : string :=
  "0x1234567890abcdef".

(** ["0x" + "".join(hex(int(time.time()) + i)[2:] for i in range(8))] *)
Definition mock_tx_hash (now : Q) : string :=
  ("0x" ++ String.concat ""
             (map (fun i : Z => hex_from_2 (int now + i)%Z)
                  [0; 1; 2; 3; 4; 5; 6; 7]%Z))%string.

Definition _execute_via_vincent
  (recommendation : Recommendation) (bet_size : Q) (user_policy : UserPolicy)
  (w : World) : result (option string) * World :=
  match truediv (bet_size * rec_profit_margin recommendation) 100 with
  | Raise e => (Raise e, emit (VincentFailed (str_exn e)) w)
  | Ok profit =>
    let w := emit (VincentExecuting (rec_market recommendation)
                                    bet_size profit) w in
    let delegation_valid := _check_user_delegation (user_address user_policy) in
    if negb delegation_valid then
      let e := Exception "User delegation expired or invalid" in
      (Raise e, emit (VincentFailed (str_exn e)) w)
    else
      let w := sleep 2 w in
      let mock := mock_tx_hash (clock w) in
      (Ok (Some mock), emit (VincentExecuted mock) w)
  end.

Definition truthy_tx (tx_hash : option string) : bool :=
  match tx_hash with
  | Some h => truthy_str h
  | None => false
  end.

Definition failed (w : World) (recommendation : Recommendation)
  (msg : string) : TradeExecution :=
  {| trade_id := "trade_" ++ pretty (int (clock w));
     market := rec_market recommendation;
     bet_size := 0;
     expected_profit := 0;
     tx_hash := None;
     status := "failed";
     timestamp := clock w;
     error_message := Some msg |}.

Definition execute_trade
  (recommendation : Recommendation) (user_policy : UserPolicy) (w : World)
  : TradeExecution * World :=
  let trade_id := ("trade_" ++ pretty (int (clock w)))%string in
  if negb (_check_policy_compliance recommendation user_policy) then
    (failed w recommendation "Policy compliance check failed", w)
  else
    let actual_bet_size :=
      min (rec_bet_size recommendation * bankroll user_policy)
          (max_bet_size user_policy) in
    if actual_bet_size <? default 10 (min_bet_size user_policy) then
      (failed w recommendation "Bet size below minimum threshold", w)
    else
      match _execute_via_vincent recommendation actual_bet_size
                                 user_policy w with
      | (Raise e, w) => (failed w recommendation (str_exn e), w)
      | (Ok tx_hash, w) =>
        match truediv (rec_profit_margin recommendation) 100 with
        | Raise e => (failed w recommendation (str_exn e), w)
        | Ok pm100 =>
          ({| trade_id := trade_id;
              market := rec_market recommendation;
              bet_size := actual_bet_size;
              expected_profit := actual_bet_size * pm100;
              tx_hash := tx_hash;
              status := if truthy_tx tx_hash then "executed" else "failed";
              timestamp := clock w;
              error_message := None |}, w)
        end
      end.

(** [update_user_policy] with the update [{"min_profit_margin": m}]. *)
Definition update_min_profit_margin (m : Q) (p : UserPolicy) : UserPolicy :=
  {| user_address := user_address p;
     bankroll := bankroll p;
     max_bet_size := max_bet_size p;
     min_bet_size := min_bet_size p;
     min_profit_margin := Some m;
     min_confidence := min_confidence p;
     max_risk_score := max_risk_score p;
     approved_markets := approved_markets p;
     is_active := is_active p |}.

(** Two policies with the same entries, [min_profit_margin] apart. *)
Definition agree_but_min_profit_margin (p1 p2 : UserPolicy) : Prop :=
  user_address p1 = user_address p2
  /\ bankroll p1 = bankroll p2
  /\ max_bet_size p1 = max_bet_size p2
  /\ min_bet_size p1 = min_bet_size p2
  /\ min_confidence p1 = min_confidence p2
  /\ max_risk_score p1 = max_risk_score p2
  /\ approved_markets p1 = approved_markets p2
  /\ is_active p1 = is_active p2.

(** The recommendation and the policy of [demonstrate_vincent_execution]. *)
Definition demo_recommendation : Recommendation := {|
  rec_market := "Will Bitcoin reach $100,000 by December 31, 2024?";
  rec_action := "EXECUTE";
  rec_bet_size := 0.15;
  rec_profit_margin := 6.2;
  rec_confidence := 85.0;
  rec_risk_score := 45.0;
  rec_reasoning :=
    ["Strong profit margin"; "High confidence"; "Good historical accuracy"]
|}.

Definition demo_policy : UserPolicy := {|
  user_address := "0x742d35Cc6634C0532925a3b8D2C042bd8c82af";
  bankroll := 1000.0;
  max_bet_size := 200.0;
  min_bet_size := Some 10.0;
  min_profit_margin := Some 4.0;
  min_confidence := Some 70.0;
  max_risk_score := Some 65.0;
  approved_markets := Some ["Bitcoin"; "Ethereum"];
  is_active := true
|}.

Definition demo_world : World := {| clock := 1730000000.5; events := [] |}.

End Executor.

(** ** scanner_agent.py *)

Module Scanner.

Import Py.

Record OpportunityData : Type := {
  market : string;
  market_odds : Q;
  oracle_price : Q;
  implied_price : Q;
  profit_margin : Q;
  confidence : Q;
  detected_at : Q
}.

(** A market descriptor; [asset] and [volume] are read with [.get]. *)
Record Market : Type := {
  id : string;
  question : string;
  outcome : string;
  odds : Q;
  volume : option Q;
  target_price : Q;
  asset : option string
}.

(** An entry of the price table; [conf] is its key ["confidence"]. *)
Record PriceData : Type := {
  price : Q;
  conf : Q;
  publish_time : Z
}.

Definition calculate_confidence
  (market : Market) (price_data : PriceData) (profit_margin : Q) : result Q :=
  let confidence := 50.0 in
  let volume := default 0 (volume market) in
  let confidence :=
    if volume >? 1000000 then confidence + 20
    else if volume >? 100000 then confidence + 10
    else confidence in
  let confidence :=
    if profit_margin >? 10 then confidence + 30
    else if profit_margin >? 5 then confidence + 20
    else if profit_margin >? 3 then confidence + 10
    else confidence in
  price_conf_ratio ← truediv (conf price_data) (price price_data);
  let confidence :=
    if price_conf_ratio <? 0.001 then confidence + 15
    else if price_conf_ratio <? 0.01 then confidence + 10
    else if price_conf_ratio >? 0.05 then confidence - 10
    else confidence in
  Ok (min (max confidence 0) 100).

(** The body of the [try] of [analyze_market]; [None] is the early
    [return None]. *)
Definition analyze_market_body
  (market : Market) (prices : gmap string PriceData) (now : Q)
  : result (option OpportunityData) :=
  match asset market ≫= (fun a => prices !! a) with
  | None => Ok None
  | Some price_data =>
    let oracle_price := price price_data in
    let market_odds := odds market in
    let target_price := target_price market in
    implied_probability ← truediv market_odds 100;
    let time_factor := 0.9 in
    let implied_price := target_price * (1 - implied_probability * time_factor) in
    ratio ← truediv (oracle_price - implied_price) implied_price;
    let profit_margin := ratio * 100 in
    confidence ← calculate_confidence market price_data profit_margin;
    Ok (Some {| market := question market;
                market_odds := market_odds;
                oracle_price := oracle_price;
                implied_price := implied_price;
                profit_margin := profit_margin;
                confidence := confidence;
                detected_at := now |})
  end.

(** [except Exception: return None] *)
Definition analyze_market
  (market : Market) (prices : gmap string PriceData) (now : Q)
  : option OpportunityData :=
  match analyze_market_body market prices now with
  | Ok r => r
  | Raise _ => None
  end.

(** The first mock market of [fetch_polymarket_data]. *)
Definition btc_market : Market := {|
  id := "btc-100k-dec31";
  question := "Will Bitcoin reach $100,000 by December 31, 2024?";
  outcome := "YES";
  odds := 75.0;
  volume := Some 1250000;
  target_price := 100000;
  asset := Some "BTC"
|}.

Definition btc_prices : gmap string PriceData :=
  {[ "BTC" := {| price := 98500; conf := 45; publish_time := 1730000000 |} ]}.

End Scanner.

(** ** analyzer_agent.py: the agent around the engine *)

Module AnalyzerAgent.

Import Py Analyzer.

(** A [trade_recommendation] message, as [send_trade_recommendation]
    builds it. *)
Record TradeMessage : Type := {
  msg_type : string;
  msg_from : string;
  msg_timestamp : Q;
  msg_recommendation : Executor.Recommendation
}.

(** The keys of an incoming message that [receive_opportunities] reads,
    both with [.get]. *)
Record Inbound : Type := {
  in_type : option string;
  in_opportunities : option (list Opportunity)
}.

(** The agent: its address, the analyses it keeps for another look, the
    messages it has put out, and the clock [time.time()] reads. *)
Record State : Type := {
  agent_address : string;
  pending_opportunities : list OpportunityAnalysis;
  sent : list TradeMessage;
  clock : Q
}.

Definition trade_message (st : State) (analysis : OpportunityAnalysis)
  : TradeMessage :=
  {| msg_type := "trade_recommendation";
     msg_from := agent_address st;
     msg_timestamp := clock st;
     msg_recommendation :=
       {| Executor.rec_market := market analysis;
          Executor.rec_action := "EXECUTE";
          Executor.rec_bet_size := bet_size analysis;
          Executor.rec_profit_margin := profit_margin analysis;
          Executor.rec_confidence := confidence analysis;
          Executor.rec_risk_score := risk_score analysis;
          Executor.rec_reasoning := reasoning analysis |} |}.

Definition send_trade_recommendation
  (analysis : OpportunityAnalysis) (st : State) : State :=
  {| agent_address := agent_address st;
     pending_opportunities := pending_opportunities st;
     sent := sent st ++ [trade_message st analysis];
     clock := clock st |}.

Definition set_pending (l : list OpportunityAnalysis) (st : State) : State :=
  {| agent_address := agent_address st;
     pending_opportunities := l;
     sent := sent st;
     clock := clock st |}.

Definition sleep (d : Q) (st : State) : State :=
  {| agent_address := agent_address st;
     pending_opportunities := pending_opportunities st;
     sent := sent st;
     clock := clock st + d |}.

Section Agent.

(** [self.metta_engine] *)
Variable metta_engine : KnowledgeBase.

(** The loop of [receive_opportunities]; an exception of the engine ends
    it where it stands. *)
Fixpoint receive_loop (opportunities : list Opportunity) (st : State)
  : State :=
  match opportunities with
  | [] => st
  | opp :: rest =>
    match analyze_opportunity metta_engine opp with
    | Raise _ => st
    | Ok analysis =>
      if String.eqb (recommendation analysis) "EXECUTE" then
        receive_loop rest (send_trade_recommendation analysis st)
      else if String.eqb (recommendation analysis) "MONITOR" then
        receive_loop rest
          (set_pending (pending_opportunities st ++ [analysis]) st)
      else receive_loop rest st
    end
  end.

Definition receive_opportunities (message : Inbound) (st : State) : State :=
  if bool_decide (in_type message = Some "opportunities_detected"%string) then
    receive_loop (default [] (in_opportunities message)) st
  else st.

Definition _update_analysis (analysis : OpportunityAnalysis)
  : result OpportunityAnalysis :=
  let time_factor := 0.95 in
  let updated_confidence := confidence analysis * time_factor in
  analyze_opportunity metta_engine
    {| opp_market := market analysis;
       opp_profit_margin := profit_margin analysis;
       opp_confidence := updated_confidence |}.

(** The loop of [process_pending_opportunities] over what is left of the
    pending list, with [updated_opportunities] so far. *)
Fixpoint pending_loop
  (todo updated_opportunities : list OpportunityAnalysis) (st : State)
  : result (list OpportunityAnalysis) * State :=
  match todo with
  | [] => (Ok updated_opportunities, st)
  | analysis :: rest =>
    match _update_analysis analysis with
    | Raise e => (Raise e, st)
    | Ok updated_analysis =>
      if String.eqb (recommendation updated_analysis) "EXECUTE" then
        pending_loop rest updated_opportunities
          (send_trade_recommendation updated_analysis st)
      else if String.eqb (recommendation updated_analysis) "MONITOR" then
        pending_loop rest (updated_opportunities ++ [updated_analysis]) st
      else pending_loop rest updated_opportunities st
    end
  end.

(** The pending list is replaced only when the loop comes to its end. *)
Definition process_pending_opportunities (st : State) : result unit * State :=
  if negb (truthy_list (pending_opportunities st)) then (Ok tt, st)
  else
    match pending_loop (pending_opportunities st) [] st with
    | (Ok updated_opportunities, st) =>
        (Ok tt, set_pending updated_opportunities st)
    | (Raise e, st) => (Raise e, st)
    end.

(** One turn of the loop of [start_analyzing]. *)
Definition start_analyzing_turn (st : State) : State :=
  match process_pending_opportunities st with
  | (Ok _, st) => sleep 10 st
  | (Raise _, st) => sleep 5 st
  end.

End Agent.

(** What the agent is given: a message, or a turn of its own loop. *)
Inductive Input : Type :=
| Message (message : Inbound)
| Turn.

Definition step (metta_engine : KnowledgeBase) (st : State) (i : Input)
  : State :=
  match i with
  | Message message => receive_opportunities metta_engine message st
  | Turn => start_analyzing_turn metta_engine st
  end.

(** [AnalyzerAgent.__init__] *)
Definition init (agent_address : string) (now : Q) : State :=
  {| agent_address := agent_address;
     pending_opportunities := [];
     sent := [];
     clock := now |}.

(** An analysis the engine can return, under the knowledge base of
    [__init__]. *)
Definition from_engine (a : OpportunityAnalysis) : Prop :=
  exists opportunity,
    analyze_opportunity knowledge_base opportunity = Ok a.

(** A payload the engine would have marked EXECUTE, sized by the sizer. *)
Definition executable (r : Executor.Recommendation) : Prop :=
  Executor.rec_action r = "EXECUTE"%string
  /\ 5.0 < Executor.rec_profit_margin r
  /\ 70.0 < Executor.rec_confidence r
  /\ Executor.rec_risk_score r < 70.0
  /\ 0.0 <= Executor.rec_bet_size r <= 0.10.

(** An opportunity the engine marks MONITOR, and the agent of [main]
    after it was told of it. *)
Definition monitor_opportunity : Opportunity := {|
  opp_market := "Will Ethereum reach $5,000 by December 31, 2024?";
  opp_profit_margin := 4.0;
  opp_confidence := 80.0
|}.

Definition watching : State :=
  receive_opportunities knowledge_base
    {| in_type := Some "opportunities_detected"%string;
       in_opportunities := Some [monitor_opportunity; demo_opportunity] |}
    (init "agent1q_analyzer_address_here" 1730000000).

(** The analysis of the demo opportunity. *)
Definition demo_analysis : OpportunityAnalysis := {|
  market := "Will Bitcoin reach $100,000 by December 31, 2024?";
  profit_margin := 6.2;
  confidence := 85.0;
  risk_score := 0.0 + 15;
  recommendation := "EXECUTE";
  bet_size := 0.0;
  reasoning := ["Moderate profit margin (6.2%)";
                "High crypto market volatility increases risk";
                "Recommendation: EXECUTE"]%string
|}.

End AnalyzerAgent.

(** ** scanner_agent.py: the scan around the detector *)

Module ScannerAgent.

Import Py Scanner.

(** The second mock market of [fetch_polymarket_data]. *)
Definition eth_market : Market := {|
  id := "eth-5k-dec31";
  question := "Will Ethereum reach $5,000 by December 31, 2024?";
  outcome := "YES";
  odds := 60.0;
  volume := Some 850000;
  target_price := 5000;
  asset := Some "ETH"
|}.

Definition fetch_polymarket_data : list Market := [btc_market; eth_market].

(** The message of [send_opportunities_to_analyzer]; each opportunity is
    written out with its seven keys. *)
Record OpportunitiesMessage : Type := {
  msg_type : string;
  msg_from : string;
  msg_timestamp : Q;
  msg_opportunities : list OpportunityData
}.

(** The agent: its address, the time of its last full scan, the messages
    it has put out. *)
Record State : Type := {
  agent_address : string;
  last_scan_time : Q;
  sent : list OpportunitiesMessage
}.

(** The loop of [scan_markets] over the markets. *)
Fixpoint collect (markets : list Market) (prices : gmap string PriceData)
  (now : Q) : list OpportunityData :=
  match markets with
  | [] => []
  | market :: rest =>
    match analyze_market market prices now with
    | Some opportunity =>
      if profit_margin opportunity >? 3.0
      then opportunity :: collect rest prices now
      else collect rest prices now
    | None => collect rest prices now
    end
  end.

Definition send_opportunities_to_analyzer
  (opportunities : list OpportunityData) (now : Q) (st : State) : State :=
  {| agent_address := agent_address st;
     last_scan_time := last_scan_time st;
     sent := sent st ++ [{| msg_type := "opportunities_detected";
                            msg_from := agent_address st;
                            msg_timestamp := now;
                            msg_opportunities := opportunities |}] |}.

(** [bool(prices)] of what [fetch_pyth_prices] gave: [None] and the empty
    table are false. *)
Definition truthy_prices (fetched : option (gmap string PriceData)) : bool :=
  match fetched with
  | Some prices => negb (bool_decide (prices = ∅))
  | None => false
  end.

(** [scan_markets], given what [fetch_pyth_prices] answered and over the
    markets [fetch_polymarket_data] answered; one reading of the clock
    stands for the readings of a scan. *)
Definition scan_markets_over (markets : list Market)
  (fetched : option (gmap string PriceData)) (now : Q) (st : State) : State :=
  if negb (truthy_prices fetched) then st
  else if negb (truthy_list markets) then st
  else
    let prices := default ∅ fetched in
    let opportunities := collect markets prices now in
    let st :=
      if truthy_list opportunities
      then send_opportunities_to_analyzer opportunities now st
      else st in
    {| agent_address := agent_address st;
       last_scan_time := now;
       sent := sent st |}.

Definition scan_markets
  (fetched : option (gmap string PriceData)) (now : Q) (st : State) : State :=
  scan_markets_over fetch_polymarket_data fetched now st.

(** The three keys of an opportunity of the message that the analyzer
    reads. *)
Definition as_opportunity (o : OpportunityData) : Analyzer.Opportunity :=
  {| Analyzer.opp_market := market o;
     Analyzer.opp_profit_margin := profit_margin o;
     Analyzer.opp_confidence := confidence o |}.

(** A price table with both assets. *)
Definition both_prices : gmap string PriceData :=
  <["ETH" := {| price := 3800; conf := 2; publish_time := 1730000000 |}]>
    btc_prices.

End ScannerAgent.

(** ** executor_agent.py: the agent around the execution layer *)

Module ExecutorAgent.

Import Py Executor.

(** The keys of an incoming message that [receive_trade_recommendation]
    reads, both with [.get]. *)
Record Inbound : Type := {
  in_type : option string;
  in_recommendation : option Recommendation
}.

(** A dict that keeps the order of insertion. *)
Definition dict (V : Type) : Type := list (string * V).

(** [d[k] = v]: an old key keeps its place. *)
Fixpoint dict_set {V : Type} (k : string) (v : V) (d : dict V) : dict V :=
  match d with
  | [] => [(k, v)]
  | (k', v') :: rest =>
    if String.eqb k' k then (k, v) :: rest
    else (k', v') :: dict_set k v rest
  end.

Fixpoint dict_get {V : Type} (k : string) (d : dict V) : option V :=
  match d with
  | [] => None
  | (k', v') :: rest => if String.eqb k' k then Some v' else dict_get k rest
  end.

(** [d.values()] *)
Definition dict_values {V : Type} (d : dict V) : list V := map snd d.

Record State : Type := {
  user_policies : gmap string UserPolicy;
  active_trades : dict TradeExecution
}.

(** The policy [ExecutorAgent.__init__] stores for the demo user. *)
Definition init_policy : UserPolicy := {|
  user_address := "0x_demo_user_address";
  bankroll := 1000.0;
  max_bet_size := 200.0;
  min_bet_size := Some 10.0;
  min_profit_margin := Some 4.0;
  min_confidence := Some 70.0;
  max_risk_score := Some 65.0;
  approved_markets := Some ["Bitcoin"; "Ethereum"; "BTC"; "ETH"];
  is_active := true
|}.

(** [ExecutorAgent.__init__] *)
Definition init : State := {|
  user_policies := {[ "0x_demo_user_address" := init_policy ]};
  active_trades := []
|}.

(** [execute_trade] on the empty dict that stands for a missing
    ["recommendation"]: the filter's first read raises a KeyError, which
    [execute_trade] turns into a failed trade on the market ["unknown"]. *)
Definition execute_trade_no_recommendation (w : World)
  : TradeExecution * World :=
  ({| trade_id := "trade_" ++ pretty (int (clock w));
      market := "unknown";
      bet_size := 0;
      expected_profit := 0;
      tx_hash := None;
      status := "failed";
      timestamp := clock w;
      error_message := Some (str_exn (KeyError "profit_margin")) |}, w).

(** [execute_trade] on [message.get("recommendation", {})]. *)
Definition execution_of (message : Inbound) (user_policy : UserPolicy)
  (w : World) : TradeExecution * World :=
  match in_recommendation message with
  | Some recommendation => execute_trade recommendation user_policy w
  | None => execute_trade_no_recommendation w
  end.

Definition receive_trade_recommendation
  (message : Inbound) (st : State) (w : World) : State * World :=
  if bool_decide (in_type message = Some "trade_recommendation"%string) then
    let user_address := "0x_demo_user_address"%string in
    match user_policies st !! user_address with
    | None => (st, w)
    | Some user_policy =>
      if negb (is_active user_policy) then (st, w)
      else
        let '(execution, w) := execution_of message user_policy w in
        ({| user_policies := user_policies st;
            active_trades :=
              dict_set (trade_id execution) execution (active_trades st) |},
         w)
    end
  else (st, w).

(** A [policy_update]: the keys it holds. *)
Record PolicyUpdate : Type := {
  upd_user_address : option string;
  upd_bankroll : option Q;
  upd_max_bet_size : option Q;
  upd_min_bet_size : option Q;
  upd_min_profit_margin : option Q;
  upd_min_confidence : option Q;
  upd_max_risk_score : option Q;
  upd_approved_markets : option (list string);
  upd_is_active : option bool
}.

(** [old.get(k)] after [old.update(new)], for a key that may be absent. *)
Definition updated {A : Type} (new old : option A) : option A :=
  match new with
  | Some v => Some v
  | None => old
  end.

(** [policy.update(policy_update)] *)
Definition dict_update (u : PolicyUpdate) (p : UserPolicy) : UserPolicy :=
  {| user_address := default (user_address p) (upd_user_address u);
     bankroll := default (bankroll p) (upd_bankroll u);
     max_bet_size := default (max_bet_size p) (upd_max_bet_size u);
     min_bet_size := updated (upd_min_bet_size u) (min_bet_size p);
     min_profit_margin :=
       updated (upd_min_profit_margin u) (min_profit_margin p);
     min_confidence := updated (upd_min_confidence u) (min_confidence p);
     max_risk_score := updated (upd_max_risk_score u) (max_risk_score p);
     approved_markets :=
       updated (upd_approved_markets u) (approved_markets p);
     is_active := default (is_active p) (upd_is_active u) |}.

Definition update_user_policy
  (user_address : string) (policy_update : PolicyUpdate) (st : State) : State :=
  match user_policies st !! user_address with
  | Some policy =>
    {| user_policies :=
         <[user_address := dict_update policy_update policy]>
           (user_policies st);
       active_trades := active_trades st |}
  | None => st
  end.

Definition get_trade_history (user_address : string) (st : State)
  : list TradeExecution :=
  if bool_decide (is_Some (user_policies st !! user_address))
  then dict_values (active_trades st)
  else [].

(** An update that only switches the policy off. *)
Definition deactivate : PolicyUpdate := {|
  upd_user_address := None;
  upd_bankroll := None;
  upd_max_bet_size := None;
  upd_min_bet_size := None;
  upd_min_profit_margin := None;
  upd_min_confidence := None;
  upd_max_risk_score := None;
  upd_approved_markets := None;
  upd_is_active := Some false
|}.

(** The demo recommendation as a message. *)
Definition demo_message : Inbound := {|
  in_type := Some "trade_recommendation"%string;
  in_recommendation := Some demo_recommendation
|}.

End ExecutorAgent.

(** ** coordinator.py *)

Module Coordinator.

Import Py.

Record Metrics : Type := {
  opportunities_detected : Z;
  opportunities_analyzed : Z;
  trades_executed : Z;
  total_profit : Q;
  system_uptime : Q
}.

(** The message [scanner_task] puts on the opportunity queue. *)
Record OpportunityMessage : Type := {
  om_type : string;
  om_from : string;
  om_timestamp : Q;
  om_opportunities : list Analyzer.Opportunity
}.

(** The coordinator: the executor's policies, the two queues (the head is
    the next message out), the metrics, and the world the trades act on. *)
Record State : Type := {
  user_policies : gmap string Executor.UserPolicy;
  opportunity_queue : list OpportunityMessage;
  recommendation_queue : list AnalyzerAgent.TradeMessage;
  metrics : Metrics;
  world : Executor.World
}.

(** [AgentCoordinator.__init__] *)
Definition init (now : Q) : State := {|
  user_policies := ExecutorAgent.user_policies ExecutorAgent.init;
  opportunity_queue := [];
  recommendation_queue := [];
  metrics := {| opportunities_detected := 0;
                opportunities_analyzed := 0;
                trades_executed := 0;
                total_profit := 0.0;
                system_uptime := now |};
  world := {| Executor.clock := now; Executor.events := [] |}
|}.

Definition set_world (w : Executor.World) (st : State) : State :=
  {| user_policies := user_policies st;
     opportunity_queue := opportunity_queue st;
     recommendation_queue := recommendation_queue st;
     metrics := metrics st;
     world := w |}.

Definition sleep (d : Q) (st : State) : State :=
  set_world (Executor.sleep d (world st)) st.

(** One turn of [scanner_task], given what the simulated scan found. *)
Definition scanner_task_turn (found : list Analyzer.Opportunity) (st : State)
  : State :=
  let st := sleep 30 st in
  if truthy_list found then
    {| user_policies := user_policies st;
       opportunity_queue :=
         opportunity_queue st ++
         [{| om_type := "opportunities_detected";
             om_from := "scanner";
             om_timestamp := Executor.clock (world st);
             om_opportunities := found |}];
       recommendation_queue := recommendation_queue st;
       metrics :=
         {| opportunities_detected :=
              opportunities_detected (metrics st) + Z.of_nat (length found);
            opportunities_analyzed := opportunities_analyzed (metrics st);
            trades_executed := trades_executed (metrics st);
            total_profit := total_profit (metrics st);
            system_uptime := system_uptime (metrics st) |};
       world := world st |}
  else st.

Definition count_analyzed (st : State) : State :=
  {| user_policies := user_policies st;
     opportunity_queue := opportunity_queue st;
     recommendation_queue := recommendation_queue st;
     metrics :=
       {| opportunities_detected := opportunities_detected (metrics st);
          opportunities_analyzed := opportunities_analyzed (metrics st) + 1;
          trades_executed := trades_executed (metrics st);
          total_profit := total_profit (metrics st);
          system_uptime := system_uptime (metrics st) |};
     world := world st |}.

Definition put_recommendation (a : Analyzer.OpportunityAnalysis) (st : State)
  : State :=
  {| user_policies := user_policies st;
     opportunity_queue := opportunity_queue st;
     recommendation_queue :=
       recommendation_queue st ++
       [{| AnalyzerAgent.msg_type := "trade_recommendation";
           AnalyzerAgent.msg_from := "analyzer";
           AnalyzerAgent.msg_timestamp := Executor.clock (world st);
           AnalyzerAgent.msg_recommendation :=
             {| Executor.rec_market := Analyzer.market a;
                Executor.rec_action := "EXECUTE";
                Executor.rec_bet_size := Analyzer.bet_size a;
                Executor.rec_profit_margin := Analyzer.profit_margin a;
                Executor.rec_confidence := Analyzer.confidence a;
                Executor.rec_risk_score := Analyzer.risk_score a;
                Executor.rec_reasoning := Analyzer.reasoning a |} |}];
     metrics := metrics st;
     world := world st |}.

(** The loop of [analyzer_task] over the opportunities of a message; an
    exception of the engine ends it, and the task sleeps a second. *)
Fixpoint analyze_all (opportunities : list Analyzer.Opportunity) (st : State)
  : State :=
  match opportunities with
  | [] => st
  | opp :: rest =>
    match Analyzer.analyze_opportunity Analyzer.knowledge_base opp with
    | Raise _ => sleep 1 st
    | Ok analysis =>
      let st := count_analyzed st in
      if String.eqb (Analyzer.recommendation analysis) "EXECUTE"
      then analyze_all rest (put_recommendation analysis st)
      else analyze_all rest st
    end
  end.

(** One turn of [analyzer_task]; with an empty queue the task waits. *)
Definition analyzer_task_turn (st : State) : option State :=
  match opportunity_queue st with
  | [] => None
  | message :: queue =>
    let st := {| user_policies := user_policies st;
                 opportunity_queue := queue;
                 recommendation_queue := recommendation_queue st;
                 metrics := metrics st;
                 world := world st |} in
    if String.eqb (om_type message) "opportunities_detected"
    then Some (analyze_all (om_opportunities message) st)
    else Some st
  end.

(** One turn of [executor_task]; with an empty queue the task waits.  The
    policy is read with [user_policies["0x_demo_user_address"]]: a missing
    key ends the turn with a second of sleep. *)
Definition executor_task_turn (st : State)
  : option (option Executor.TradeExecution * State) :=
  match recommendation_queue st with
  | [] => None
  | message :: queue =>
    let st := {| user_policies := user_policies st;
                 opportunity_queue := opportunity_queue st;
                 recommendation_queue := queue;
                 metrics := metrics st;
                 world := world st |} in
    if String.eqb (AnalyzerAgent.msg_type message) "trade_recommendation" then
      match user_policies st !! "0x_demo_user_address"%string with
      | None => Some (None, sleep 1 st)
      | Some user_policy =>
        let '(execution, w) :=
          Executor.execute_trade (AnalyzerAgent.msg_recommendation message)
                                 user_policy (world st) in
        let st := set_world w st in
        if String.eqb (Executor.status execution) "executed" then
          Some (Some execution,
                {| user_policies := user_policies st;
                   opportunity_queue := opportunity_queue st;
                   recommendation_queue := recommendation_queue st;
                   metrics :=
                     {| opportunities_detected :=
                          opportunities_detected (metrics st);
                        opportunities_analyzed :=
                          opportunities_analyzed (metrics st);
                        trades_executed := trades_executed (metrics st) + 1;
                        total_profit :=
                          total_profit (metrics st)
                          + Executor.expected_profit execution;
                        system_uptime := system_uptime (metrics st) |};
                   world := world st |})
        else Some (Some execution, st)
      end
    else Some (None, st)
  end.

(** Which task takes its turn; the scanner's comes with what the
    simulated scan found. *)
Inductive Input : Type :=
| ScannerTurn (found : list Analyzer.Opportunity)
| AnalyzerTurn
| ExecutorTurn.

(** A task that waits on an empty queue changes nothing. *)
Definition step (st : State) (i : Input) : State :=
  match i with
  | ScannerTurn found => scanner_task_turn found st
  | AnalyzerTurn => default st (analyzer_task_turn st)
  | ExecutorTurn => default st (snd <$> executor_task_turn st)
  end.

(** The opportunities still waiting on the opportunity queue. *)
Fixpoint waiting (queue : list OpportunityMessage) : Z :=
  match queue with
  | [] => 0
  | message :: rest =>
      Z.of_nat (length (om_opportunities message)) + waiting rest
  end.

(** What holds of the coordinator between the turns of its tasks. *)
Record Accounted (st : State) : Prop := {
  acc_policies :
    user_policies st = ExecutorAgent.user_policies ExecutorAgent.init;
  acc_types :
    Forall (fun m => om_type m = "opportunities_detected"%string)
           (opportunity_queue st);
  acc_detected :
    (opportunities_analyzed (metrics st) + waiting (opportunity_queue st)
     = opportunities_detected (metrics st))%Z;
  acc_executed :
    (0 <= trades_executed (metrics st))%Z
    /\ (trades_executed (metrics st)
        + Z.of_nat (length (recommendation_queue st))
        <= opportunities_analyzed (metrics st))%Z;
  acc_recommended :
    Forall (fun m => AnalyzerAgent.msg_type m = "trade_recommendation"%string
                     /\ AnalyzerAgent.msg_from m = "analyzer"%string
                     /\ AnalyzerAgent.executable
                          (AnalyzerAgent.msg_recommendation m))
           (recommendation_queue st);
  acc_events :
    Z.of_nat (length (Executor.events (world st)))
    = (2 * trades_executed (metrics st))%Z;
  acc_profit : 0 <= total_profit (metrics st)
}.

(** The coordinator of [main] with the demo opportunity found by a scan. *)
Definition after_scan : State :=
  scanner_task_turn [Analyzer.demo_opportunity] (init 1730000000).

(** An opportunity [simulate_scanner_scan] can draw: the Bitcoin market
    with a margin in [3, 8] and a confidence in [70, 90], or the Ethereum
    market with a margin in [2, 6] and a confidence in [65, 85]. *)
Definition simulated (o : Analyzer.Opportunity) : Prop :=
  (Analyzer.opp_market o
     = "Will Bitcoin reach $100,000 by December 31, 2024?"%string
   /\ 3 <= Analyzer.opp_profit_margin o <= 8
   /\ 70 <= Analyzer.opp_confidence o <= 90)
  \/ (Analyzer.opp_market o
       = "Will Ethereum reach $5,000 by December 31, 2024?"%string
      /\ 2 <= Analyzer.opp_profit_margin o <= 6
      /\ 65 <= Analyzer.opp_confidence o <= 85).

(** The turns whose scans found only such opportunities. *)
Definition simulated_input (i : Input) : Prop :=
  match i with
  | ScannerTurn found => Forall simulated found
  | AnalyzerTurn | ExecutorTurn => True
  end.

(** A coordinator that has not traded and holds nothing that could be
    traded. *)
Record Idle (st : State) : Prop := {
  idle_policies :
    user_policies st = ExecutorAgent.user_policies ExecutorAgent.init;
  idle_opportunities :
    Forall (fun m => om_type m = "opportunities_detected"%string
                     /\ Forall simulated (om_opportunities m))
           (opportunity_queue st);
  idle_recommendations :
    Forall (fun m => AnalyzerAgent.msg_type m = "trade_recommendation"%string
                     /\ Executor.rec_bet_size
                          (AnalyzerAgent.msg_recommendation m) <= 0)
           (recommendation_queue st);
  idle_trades : trades_executed (metrics st) = 0%Z;
  idle_profit : total_profit (metrics st) = 0.0;
  idle_events : Executor.events (world st) = []
}.


End Coordinator.

(** * Properties *)

(** ** Facts about the Python fragment *)

Module PyFacts.

Import Py.

Lemma lt_true (x y : Q) : (x <? y) = true <-> x < y.
Proof.
  unfold lt. rewrite negb_true_iff. split.
  - intros H. apply Qnot_le_lt. intros Hle.
    apply Qle_bool_iff in Hle. congruence.
  - intros H. destruct (Qle_bool y x) eqn:E; [|reflexivity].
    apply Qle_bool_iff in E. lra.
Qed.

Lemma lt_false (x y : Q) : (x <? y) = false <-> y <= x.
Proof.
  unfold lt. rewrite negb_false_iff. apply Qle_bool_iff.
Qed.

Lemma le_true (x y : Q) : (x <=? y) = true <-> x <= y.
Proof. apply Qle_bool_iff. Qed.

Lemma le_false (x y : Q) : (x <=? y) = false <-> y < x.
Proof.
  unfold le. split.
  - intros H. apply Qnot_le_lt. intros Hle.
    apply Qle_bool_iff in Hle. congruence.
  - intros H. destruct (Qle_bool x y) eqn:E; [|reflexivity].
    apply Qle_bool_iff in E. lra.
Qed.

Lemma gt_true (x y : Q) : (x >? y) = true <-> y < x.
Proof. apply lt_true. Qed.

Lemma gt_false (x y : Q) : (x >? y) = false <-> x <= y.
Proof. apply lt_false. Qed.

(** Turn every comparison of the context into an order on [Q]. *)
Ltac to_order :=
  repeat match goal with
  | H : (_ <? _) = true |- _ => apply lt_true in H
  | H : (_ <? _) = false |- _ => apply lt_false in H
  | H : (_ >? _) = true |- _ => apply gt_true in H
  | H : (_ >? _) = false |- _ => apply gt_false in H
  | H : (_ <=? _) = true |- _ => apply le_true in H
  | H : (_ <=? _) = false |- _ => apply le_false in H
  end.

(** Replace the inverse of a literal by its value, for [lra]. *)
Ltac inv_literals :=
  unfold Qdiv in *;
  repeat match goal with
  | |- context [Qinv (Qmake ?n ?d)] =>
      let v := eval vm_compute in (Qinv (Qmake n d)) in
      change (Qinv (Qmake n d)) with v
  | H : context [Qinv (Qmake ?n ?d)] |- _ =>
      let v := eval vm_compute in (Qinv (Qmake n d)) in
      change (Qinv (Qmake n d)) with v in H
  end.

Lemma bind_Ok {A B : Type} (a : A) (k : A -> result B) :
  (Ok a ≫= k) = k a.
Proof. reflexivity. Qed.

Lemma truediv_Ok (x y : Q) : ~ y == 0 -> truediv x y = Ok (x / y).
Proof.
  intros H. unfold truediv. destruct (Qeq_bool y 0) eqn:E; [|reflexivity].
  apply Qeq_bool_iff in E. contradiction.
Qed.

Lemma truediv_Raise (x y : Q) : y == 0 -> truediv x y = Raise ZeroDivisionError.
Proof.
  intros H. unfold truediv. apply Qeq_bool_iff in H. now rewrite H.
Qed.

Lemma truediv_100 (x : Q) : truediv x 100.0 = Ok (x / 100.0).
Proof. reflexivity. Qed.

Lemma max_lower (a b : Q) : b <= max a b /\ a <= max a b.
Proof.
  unfold max. destruct (b >? a) eqn:E; to_order; lra.
Qed.

Lemma min_upper (a b : Q) : min a b <= b /\ min a b <= a.
Proof.
  unfold min. destruct (b <? a) eqn:E; to_order; lra.
Qed.

Lemma max_cases (a b : Q) : max a b = a \/ max a b = b.
Proof. unfold max. destruct (b >? a); auto. Qed.

Lemma min_cases (a b : Q) : min a b = a \/ min a b = b.
Proof. unfold min. destruct (b <? a); auto. Qed.

(** [min(max(x, lo), hi)] stays between [lo] and [hi]. *)
Lemma clamp_bounds (x lo hi : Q) :
  lo <= hi -> lo <= min (max x lo) hi <= hi.
Proof.
  intros Hlh. pose proof (max_lower x lo) as [Hm _].
  unfold min. destruct (hi <? max x lo) eqn:E; to_order; lra.
Qed.


Lemma prefix_spec (s t : string) :
  String.prefix s t = true <-> exists after, t = (s ++ after)%string.
Proof.
  revert t. induction s as [|a s IH]; intros t; cbn.
  - destruct t; split; eauto.
  - destruct t as [|b t].
    + split; [discriminate|]. intros [after H]. discriminate H.
    + change (String.prefix (String a s) (String b t))
        with (if Ascii.ascii_dec a b then String.prefix s t else false).
      destruct (Ascii.ascii_dec a b) as [->|Hne].
      * rewrite IH. split; intros [after H]; exists after.
        -- now rewrite H.
        -- now injection H.
      * split; [discriminate|]. intros [after H].
        injection H as H1 H2. congruence.
Qed.

Lemma contains_spec (s t : string) : contains s t = true <-> occurs_in s t.
Proof.
  unfold occurs_in. induction t as [|c t IH]; cbn [contains].
  - rewrite orb_false_r, prefix_spec. split.
    + intros [after H]. exists ""%string, after. exact H.
    + intros (before & after & H). exists after.
      destruct before; [exact H|discriminate H].
  - rewrite orb_true_iff, prefix_spec, IH. split.
    + intros [[after H] | (before & after & H)].
      * exists ""%string, after. exact H.
      * exists (String c before), after. cbn. now rewrite H.
    + intros (before & after & H). destruct before as [|c' before].
      * left. exists after. exact H.
      * right. exists before, after. cbn in H. now injection H.
Qed.

Lemma contains_false (s t : string) : contains s t = false <-> ~ occurs_in s t.
Proof.
  rewrite <- contains_spec. destruct (contains s t); split; intros H;
    try discriminate; try reflexivity; try (now exfalso; apply H).
Qed.

(** A literal is not zero. *)
Ltac nonzero_literal :=
  let H := fresh in intro H; vm_compute in H; discriminate H.

End PyFacts.

(** ** The reasoning engine *)

Module AnalyzerSpec.

Import Py PyFacts Analyzer.

(** The value of [b = odds - 1] in [_calculate_kelly_bet_size]. *)
Lemma kelly_b_value (profit_margin : Q) :
  1 + profit_margin / 100.0 - 1 == profit_margin / 100.0.
Proof. inv_literals. lra. Qed.

(** The sizer past its guard: the Kelly fraction is a true quotient. *)
Lemma kelly_past_guard (profit_margin confidence risk_score : Q) :
  0 < profit_margin -> 0 < confidence ->
  _calculate_kelly_bet_size profit_margin confidence risk_score =
  let b := 1 + profit_margin / 100.0 - 1 in
  let p := confidence / 100.0 in
  Ok (min (max ((b * p - (1 - p)) / b
                * max 0.1 (1.0 - risk_score / 100.0)) 0.0) 0.10).
Proof.
  intros Hpm Hc. unfold _calculate_kelly_bet_size.
  rewrite !truediv_100, !bind_Ok. cbv zeta.
  destruct (1 + profit_margin / 100.0 - 1 <=? 0) eqn:Eb.
  { to_order. inv_literals. lra. }
  destruct (confidence / 100.0 <=? 0) eqn:Ep.
  { to_order. inv_literals. lra. }
  cbn [orb]. rewrite truediv_Ok.
  - reflexivity.
  - to_order. intros H0. rewrite H0 in Eb. lra.
Qed.

Lemma kelly_at_guard (profit_margin confidence risk_score : Q) :
  profit_margin <= 0 \/ confidence <= 0 ->
  _calculate_kelly_bet_size profit_margin confidence risk_score = Ok 0.0.
Proof.
  intros H. unfold _calculate_kelly_bet_size.
  rewrite !truediv_100, !bind_Ok. cbv zeta.
  destruct (1 + profit_margin / 100.0 - 1 <=? 0) eqn:Eb; [reflexivity|].
  destruct (confidence / 100.0 <=? 0) eqn:Ep; [reflexivity|].
  exfalso. to_order. inv_literals. lra.
Qed.

(** The sizer returns on every input, and what it returns is clamped. *)
Lemma kelly_returns (profit_margin confidence risk_score : Q) :
  exists bet_size,
    _calculate_kelly_bet_size profit_margin confidence risk_score = Ok bet_size
    /\ 0.0 <= bet_size <= 0.10.
Proof.
  destruct (Qlt_le_dec 0 profit_margin) as [Hpm|Hpm].
  - destruct (Qlt_le_dec 0 confidence) as [Hc|Hc].
    + rewrite kelly_past_guard by assumption. cbv zeta.
      eexists. split; [reflexivity|]. apply clamp_bounds. lra.
    + rewrite kelly_at_guard by auto. exists 0.0. split; [reflexivity|lra].
  - rewrite kelly_at_guard by auto. exists 0.0. split; [reflexivity|lra].
Qed.


(** C2: with the configured ceiling of 70.0, the recommendation is EXECUTE
    exactly when [profit_margin > 5.0], [confidence > 70.0] and
    [risk_score < 70.0]; failing that it is MONITOR exactly when
    [profit_margin > 3.0], [confidence > 60.0] and [risk_score < 80.0];
    and SKIP in every other case. *)
Theorem generate_recommendation_rule (profit_margin confidence risk_score : Q) :
  (_generate_recommendation knowledge_base profit_margin confidence risk_score
     = "EXECUTE"
   <-> (5.0 < profit_margin /\ 70.0 < confidence /\ risk_score < 70.0))
  /\
  (_generate_recommendation knowledge_base profit_margin confidence risk_score
     = "MONITOR"
   <-> (~ (5.0 < profit_margin /\ 70.0 < confidence /\ risk_score < 70.0)
        /\ 3.0 < profit_margin /\ 60.0 < confidence /\ risk_score < 80.0))
  /\
  (_generate_recommendation knowledge_base profit_margin confidence risk_score
     = "SKIP"
   <-> (~ (5.0 < profit_margin /\ 70.0 < confidence /\ risk_score < 70.0)
        /\ ~ (3.0 < profit_margin /\ 60.0 < confidence /\ risk_score < 80.0))).
Proof.
  unfold _generate_recommendation. cbn [max_risk_score risk_parameters knowledge_base].
  destruct (profit_margin >? 5.0) eqn:E1, (confidence >? 70.0) eqn:E2,
           (risk_score <? 70.0) eqn:E3, (profit_margin >? 3.0) eqn:E4,
           (confidence >? 60.0) eqn:E5, (risk_score <? 80.0) eqn:E6;
    cbn [andb]; to_order;
    (repeat split; intros; try discriminate; try lra;
     repeat match goal with
            | H : _ /\ _ |- _ => destruct H
            | H : ~ _ |- _ => try (exfalso; apply H; repeat split; lra); clear H
            | |- ~ _ => intros [? [? ?]]
            end; try lra).
Qed.



(** *** The rule chain under the knowledge base of [__init__] *)

Lemma asset_type_cases (market : string) :
  asset_type_of market = "btc" \/ asset_type_of market = "eth".
Proof.
  unfold asset_type_of.
  destruct (contains "bitcoin" (lower market) || contains "btc" (lower market));
    auto.
Qed.

(** Neither asset name is a key of the table of historical performance. *)
Lemma asset_type_not_a_key (market : string) :
  has_key (historical_performance knowledge_base) (asset_type_of market) = false.
Proof.
  destruct (asset_type_cases market) as [-> | ->]; vm_compute; reflexivity.
Qed.

Lemma rule_asset_history_skips (market : string) (s : Score) :
  rule_asset_history knowledge_base market s = Ok s.
Proof.
  unfold rule_asset_history. cbv zeta.
  now rewrite asset_type_not_a_key.
Qed.

Lemma rule_volatility_adds (s : Score) :
  rule_volatility knowledge_base s =
  bump 15 "High crypto market volatility increases risk" s.
Proof. reflexivity. Qed.

(** The risk score after rules 1 to 4, by the branch each rule takes. *)
Lemma run_rules_risk (market : string) (profit_margin confidence : Q) :
  exists s, run_rules knowledge_base market profit_margin confidence = Ok s
    /\ exists m c,
         ((15.0 < profit_margin /\ m = 30)
          \/ (profit_margin <= 15.0 /\ 8.0 < profit_margin /\ m = 10)
          \/ (profit_margin <= 8.0 /\ m = 0))
      /\ ((confidence < 60.0 /\ c = 25)
          \/ (60.0 <= confidence /\ 85 < confidence /\ c = -10)
          \/ (60.0 <= confidence /\ confidence <= 85 /\ c = 0))
      /\ score_risk s == m + c + 15.
Proof.
  unfold run_rules. cbv zeta.
  rewrite rule_asset_history_skips, bind_Ok, rule_volatility_adds.
  eexists. split; [reflexivity|].
  unfold rule_profit_margin, rule_confidence.
  cbn [max_profit_margin min_confidence risk_parameters knowledge_base].
  destruct (profit_margin >? 15.0) eqn:E1;
    [|destruct (profit_margin >? 8.0) eqn:E2];
    (destruct (confidence <? 60.0) eqn:E3;
      [|destruct (confidence >? 85) eqn:E4]);
    to_order; cbn [score_risk bump note];
    [ exists 30, 25 | exists 30, (-10) | exists 30, 0
    | exists 10, 25 | exists 10, (-10) | exists 10, 0
    | exists 0, 25 | exists 0, (-10) | exists 0, 0 ];
    (split; [tauto|split; [tauto|lra]]).
Qed.

Lemma analyze_opportunity_returns (opportunity : Opportunity) :
  exists s bet_size,
    run_rules knowledge_base (opp_market opportunity)
              (opp_profit_margin opportunity) (opp_confidence opportunity)
      = Ok s
    /\ _calculate_kelly_bet_size (opp_profit_margin opportunity)
         (opp_confidence opportunity) (score_risk s) = Ok bet_size
    /\ analyze_opportunity knowledge_base opportunity =
       Ok {| market := opp_market opportunity;
             profit_margin := opp_profit_margin opportunity;
             confidence := opp_confidence opportunity;
             risk_score := score_risk s;
             recommendation :=
               _generate_recommendation knowledge_base
                 (opp_profit_margin opportunity) (opp_confidence opportunity)
                 (score_risk s);
             bet_size := bet_size;
             reasoning :=
               score_reasoning s ++
               ["Recommendation: " ++
                _generate_recommendation knowledge_base
                  (opp_profit_margin opportunity) (opp_confidence opportunity)
                  (score_risk s)]%string |}.
Proof.
  destruct (run_rules_risk (opp_market opportunity)
              (opp_profit_margin opportunity) (opp_confidence opportunity))
    as [s [Hs _]].
  destruct (kelly_returns (opp_profit_margin opportunity)
              (opp_confidence opportunity) (score_risk s)) as [b [Hb _]].
  exists s, b. split; [assumption|]. split; [assumption|].
  unfold analyze_opportunity, recommend. cbv zeta.
  rewrite Hs, !bind_Ok. cbn [note score_risk score_reasoning].
  rewrite Hb, bind_Ok. reflexivity.
Qed.


(** C3: on the demo market, which names Bitcoin, the asset is classified
    [btc] and the table holds an accuracy of 0.72 for BTC predictions, yet
    rule 3 leaves the score as it found it: the membership test asks for the
    key [btc] where the table has [btc_predictions].  The analysis ends with
    a risk score of 15, not the 10 a subtraction of 5 would give. *)
Theorem asset_history_rule_on_demo :
  asset_type_of (opp_market demo_opportunity) = "btc"
  /\ (exists hist_perf,
        historical_performance knowledge_base !! "btc_predictions"
          = Some hist_perf
        /\ 0.7 < accuracy hist_perf)
  /\ has_key (historical_performance knowledge_base) "btc" = false
  /\ (forall s : Score,
        rule_asset_history knowledge_base (opp_market demo_opportunity) s
          = Ok s)
  /\ exists a,
       analyze_opportunity knowledge_base demo_opportunity = Ok a
       /\ risk_score a == 15
       /\ reasoning a = ["Moderate profit margin (6.2%)";
                         "High crypto market volatility increases risk";
                         "Recommendation: EXECUTE"]%string.
Proof.
  split; [vm_compute; reflexivity|].
  split.
  { eexists. split; [vm_compute; reflexivity|]. cbn [accuracy]. lra. }
  split; [vm_compute; reflexivity|].
  split; [intros s; apply rule_asset_history_skips|].
  eexists. split; [vm_compute; reflexivity|].
  split; [cbn [risk_score]; lra|reflexivity].
Qed.

(** C4 as stated fails on the demo opportunity: the trail ends with the
    recommendation line, which says nothing of a bet or of Kelly, and it is
    the trail rule 5 left, with no line after it. *)
Lemma demo_trail_ends_with_recommendation :
  exists a,
    analyze_opportunity knowledge_base demo_opportunity = Ok a
    /\ last (reasoning a) = Some "Recommendation: EXECUTE"%string
    /\ contains "bet" (lower "Recommendation: EXECUTE") = false
    /\ contains "kelly" (lower "Recommendation: EXECUTE") = false
    /\ ~ (exists s r line,
            recommend knowledge_base (opp_market demo_opportunity)
              (opp_profit_margin demo_opportunity)
              (opp_confidence demo_opportunity) = Ok (s, r)
            /\ reasoning a = score_reasoning s ++ [line]).
Proof.
  eexists. split; [vm_compute; reflexivity|].
  split; [reflexivity|].
  split; [vm_compute; reflexivity|].
  split; [vm_compute; reflexivity|].
  intros (s & r & line & Hrec & Hline).
  vm_compute in Hrec. injection Hrec as <- <-.
  apply (f_equal (@length string)) in Hline.
  cbn in Hline. discriminate.
Qed.

(** C4, amended: for every opportunity the analysis is returned, its
    reasoning is the trail as rule 5 left it, and the last element is the
    line ["Recommendation: "] followed by the recommendation; the bet-size
    computation adds no entry. *)
Theorem reasoning_ends_with_recommendation (opportunity : Opportunity) :
  exists s a,
    recommend knowledge_base (opp_market opportunity)
      (opp_profit_margin opportunity) (opp_confidence opportunity)
      = Ok (s, recommendation a)
    /\ analyze_opportunity knowledge_base opportunity = Ok a
    /\ reasoning a = score_reasoning s
    /\ last (reasoning a)
       = Some ("Recommendation: " ++ recommendation a)%string.
Proof.
  destruct (analyze_opportunity_returns opportunity)
    as (s & b & Hs & Hb & Ha).
  eexists. eexists. split; [|split; [exact Ha|]].
  - unfold recommend. rewrite Hs, bind_Ok. cbv zeta.
    cbn [recommendation]. reflexivity.
  - cbn [reasoning recommendation note score_reasoning].
    split; [reflexivity|]. apply last_snoc.
Qed.

(** C10: under the knowledge base of [__init__] every analysis is returned
    with a risk score that is the sum of a profit-margin part (0, 10 or
    30), a confidence part (-10, 0 or 25) and 15 for volatility; rule 3
    adds nothing, the asset names [btc] and [eth] not being keys of the
    table, whose keys are [btc_predictions] and [eth_predictions].  So the
    score lies between 5 and 70, stays below 80, and is at least 70 only
    when it is 70. *)
Theorem risk_score_between_5_and_70 (opportunity : Opportunity) :
  exists a,
    analyze_opportunity knowledge_base opportunity = Ok a
    /\ (exists m c : Q,
          (m = 0 \/ m = 10 \/ m = 30)
          /\ (c = -10 \/ c = 0 \/ c = 25)
          /\ risk_score a == m + c + 15)
    /\ (forall s : Score,
          rule_asset_history knowledge_base (opp_market opportunity) s = Ok s)
    /\ (asset_type_of (opp_market opportunity) = "btc"
        \/ asset_type_of (opp_market opportunity) = "eth")
    /\ has_key (historical_performance knowledge_base) "btc" = false
    /\ has_key (historical_performance knowledge_base) "eth" = false
    /\ dom (historical_performance knowledge_base)
       = ({[ "btc_predictions"; "eth_predictions" ]} : gset string)
    /\ 5 <= risk_score a <= 70
    /\ risk_score a < 80
    /\ (70 <= risk_score a -> risk_score a == 70).
Proof.
  destruct (analyze_opportunity_returns opportunity)
    as (s & b & Hs & Hb & Ha).
  destruct (run_rules_risk (opp_market opportunity)
              (opp_profit_margin opportunity) (opp_confidence opportunity))
    as (s' & Hs' & m & c & Hm & Hc & Hsum).
  rewrite Hs in Hs'. injection Hs' as <-.
  eexists. split; [exact Ha|]. cbn [risk_score].
  assert (Hm' : m = 0 \/ m = 10 \/ m = 30) by tauto.
  assert (Hc' : c = -10 \/ c = 0 \/ c = 25) by tauto.
  split; [exists m, c; auto|].
  split; [intros s0; apply rule_asset_history_skips|].
  split; [apply asset_type_cases|].
  split; [vm_compute; reflexivity|].
  split; [vm_compute; reflexivity|].
  split.
  { unfold knowledge_base. cbn [historical_performance].
    rewrite !dom_insert_L, dom_empty_L. set_solver. }
  clear Hm Hc.
  destruct Hm' as [-> | [-> | ->]], Hc' as [-> | [-> | ->]];
    (split; [lra|split; [lra|intros; lra]]).
Qed.

End AnalyzerSpec.

(** ** The policy filter and the execution path *)

Module ExecutorSpec.

Import Py PyFacts Executor.

Lemma any_in_false (approved : list string) (text : string) :
  any_in approved text = false
  <-> forall m, In m approved -> ~ occurs_in m text.
Proof.
  unfold any_in. induction approved as [|a l IH]; cbn [existsb].
  - split; [intros _ m []|reflexivity].
  - rewrite orb_false_iff, IH, contains_false. split.
    + intros [Ha Hl] m [<-|Hm]; auto.
    + intros H. split; [apply H; now left|].
      intros m Hm. apply H. now right.
Qed.

Lemma truthy_list_true {A : Type} (l : list A) : truthy_list l = true <-> l <> [].
Proof. destruct l; cbn; split; congruence. Qed.

(** C5: the filter returns false exactly when the profit margin is below
    the policy's minimum (3.0 when absent), or the confidence is below its
    minimum (60.0 when absent), or the risk score is above its maximum
    (70.0 when absent), or the list of approved markets is not empty and
    none of its strings occurs, as it is spelt, in the market text; an
    empty or absent list restricts nothing. *)
Theorem check_policy_compliance_rejects
  (recommendation : Recommendation) (user_policy : UserPolicy) :
  (_check_policy_compliance recommendation user_policy = false
   <-> (rec_profit_margin recommendation
          < default 3.0 (min_profit_margin user_policy)
        \/ rec_confidence recommendation
          < default 60.0 (min_confidence user_policy)
        \/ default 70.0 (max_risk_score user_policy)
          < rec_risk_score recommendation
        \/ (default [] (approved_markets user_policy) <> []
            /\ forall m, In m (default [] (approved_markets user_policy)) ->
                 ~ occurs_in m (rec_market recommendation))))
  /\ (default [] (approved_markets user_policy) = [] ->
      (_check_policy_compliance recommendation user_policy = true
       <-> (default 3.0 (min_profit_margin user_policy)
              <= rec_profit_margin recommendation
            /\ default 60.0 (min_confidence user_policy)
              <= rec_confidence recommendation
            /\ rec_risk_score recommendation
              <= default 70.0 (max_risk_score user_policy)))).
Proof.
  unfold _check_policy_compliance. cbv zeta.
  destruct (rec_profit_margin recommendation
              <? default 3.0 (min_profit_margin user_policy)) eqn:E1;
  destruct (rec_confidence recommendation
              <? default 60.0 (min_confidence user_policy)) eqn:E2;
  destruct (rec_risk_score recommendation
              >? default 70.0 (max_risk_score user_policy)) eqn:E3;
  to_order;
  try (split; [split; [intros _; tauto|reflexivity]
              |intros _; split; [discriminate|intros; lra]]).
  destruct (truthy_list (default [] (approved_markets user_policy))) eqn:E4;
  destruct (any_in (default [] (approved_markets user_policy))
                   (rec_market recommendation)) eqn:E5; cbn [andb negb].
  - apply truthy_list_true in E4. split.
    + split; [discriminate|]. intros [H|[H|[H|[_ H]]]]; try lra.
      apply (proj2 (any_in_false _ _)) in H. congruence.
    + intros H. contradiction.
  - apply truthy_list_true in E4.
    pose proof (proj1 (any_in_false _ _) E5) as E5'. split.
    + split; [intros _; right; right; right; auto|reflexivity].
    + intros H. contradiction.
  - assert (E4' : default [] (approved_markets user_policy) = []).
    { destruct (default [] (approved_markets user_policy));
        [reflexivity|discriminate]. }
    split.
    + split; [discriminate|]. intros [H|[H|[H|[H _]]]]; try lra.
      contradiction.
    + intros _. split; [intros _; repeat split; lra|reflexivity].
  - assert (E4' : default [] (approved_markets user_policy) = []).
    { destruct (default [] (approved_markets user_policy));
        [reflexivity|discriminate]. }
    split.
    + split; [discriminate|]. intros [H|[H|[H|[H _]]]]; try lra.
      contradiction.
    + intros _. split; [intros _; repeat split; lra|reflexivity].
Qed.


(** C9: of two policies that agree on every entry but
    [min_profit_margin], the one with the lower minimum accepts every
    recommendation the other accepts: raising the minimum never turns a
    reject into an accept. *)
Theorem check_policy_compliance_monotone
  (recommendation : Recommendation) (p1 p2 : UserPolicy) :
  agree_but_min_profit_margin p1 p2 ->
  default 3.0 (min_profit_margin p1) <= default 3.0 (min_profit_margin p2) ->
  _check_policy_compliance recommendation p2 = true ->
  _check_policy_compliance recommendation p1 = true.
Proof.
  intros (_ & _ & _ & _ & Hc & Hr & Ha & _) Hle.
  unfold _check_policy_compliance. rewrite Hc, Hr, Ha. cbv zeta.
  destruct (rec_profit_margin recommendation
              <? default 3.0 (min_profit_margin p2)) eqn:E2;
    [discriminate|].
  destruct (rec_profit_margin recommendation
              <? default 3.0 (min_profit_margin p1)) eqn:E1;
    [|trivial].
  to_order. lra.
Qed.

(** The demo recommendation, accepted at a minimum of 4.0, is accepted at
    3.0. *)
Lemma check_policy_compliance_monotone_demo :
  _check_policy_compliance demo_recommendation
    (update_min_profit_margin 3.0 demo_policy) = true.
Proof.
  apply (check_policy_compliance_monotone demo_recommendation
           (update_min_profit_margin 3.0 demo_policy) demo_policy).
  - repeat split.
  - vm_compute. discriminate.
  - vm_compute. reflexivity.
Defined.

Lemma mock_tx_hash_truthy (now : Q) : truthy_str (mock_tx_hash now) = true.
Proof. reflexivity. Qed.



End ExecutorSpec.

(** ** The opportunity detector *)

Module ScannerSpec.

Import Py PyFacts Scanner.




End ScannerSpec.

(** ** More on the sizer and the recommendation *)

Module SizerSpec.

Import Py PyFacts Analyzer AnalyzerSpec.

Lemma clamp_positive (x : Q) : 0 < min (max x 0.0) 0.10 <-> 0 < x.
Proof.
  unfold min, max.
  destruct (0.0 >? x) eqn:E1.
  - destruct (0.10 <? 0.0) eqn:E2; to_order; lra.
  - destruct (0.10 <? x) eqn:E2; to_order; lra.
Qed.

Lemma clamp_monotone (x y : Q) :
  x <= y -> min (max x 0.0) 0.10 <= min (max y 0.0) 0.10.
Proof.
  intros Hxy. unfold min, max.
  destruct (0.0 >? x) eqn:E1, (0.0 >? y) eqn:E2;
    repeat match goal with
    | |- context [?a <? ?b] => destruct (a <? b) eqn:?
    end; to_order; lra.
Qed.

Lemma risk_adjustment_positive (risk_score : Q) :
  0.1 <= max 0.1 (1.0 - risk_score / 100.0).
Proof. apply max_lower. Qed.

Lemma risk_adjustment_antitone (r1 r2 : Q) :
  r1 <= r2 ->
  max 0.1 (1.0 - r2 / 100.0) <= max 0.1 (1.0 - r1 / 100.0).
Proof.
  intros H. unfold max.
  destruct (1.0 - r2 / 100.0 >? 0.1) eqn:E2,
           (1.0 - r1 / 100.0 >? 0.1) eqn:E1;
    to_order; inv_literals; lra.
Qed.

Lemma quotient_positive (n b : Q) : 0 < b -> (0 < n / b <-> 0 < n).
Proof.
  intros Hb. split; intros H.
  - assert (Hn : n == n / b * b) by (field; lra).
    rewrite Hn. apply Qmult_lt_0_compat; assumption.
  - apply Qlt_shift_div_l; lra.
Qed.

Lemma product_positive (k a : Q) : 0 < a -> (0 < k * a <-> 0 < k).
Proof.
  intros Ha. split; intros H.
  - destruct (Qlt_le_dec 0 k) as [Hk|Hk]; [assumption|].
    exfalso. assert (k * a <= 0 * a) by (apply Qmult_le_compat_r; lra). lra.
  - apply Qmult_lt_0_compat; assumption.
Qed.

Lemma product_negative (k a : Q) : k < 0 -> 0 < a -> k * a < 0.
Proof.
  intros Hk Ha.
  assert (H : 0 < (- k) * a) by (apply Qmult_lt_0_compat; lra).
  assert (E : (- k) * a == - (k * a)) by ring.
  lra.
Qed.

Lemma kelly_positive (profit_margin confidence risk_score : Q) :
  exists bet_size,
    _calculate_kelly_bet_size profit_margin confidence risk_score = Ok bet_size
    /\ (0 < bet_size
        <-> (0 < profit_margin /\ 0 < confidence
             /\ 100 * (100 - confidence) < profit_margin * confidence)).
Proof.
  destruct (Qlt_le_dec 0 profit_margin) as [Hpm|Hpm];
    [destruct (Qlt_le_dec 0 confidence) as [Hc|Hc]|].
  - rewrite kelly_past_guard by assumption. cbv zeta.
    eexists. split; [reflexivity|].
    rewrite clamp_positive.
    rewrite product_positive
      by (pose proof (risk_adjustment_positive risk_score); lra).
    rewrite quotient_positive by (inv_literals; lra).
    inv_literals. split.
    + intros H. repeat split; try assumption. lra.
    + intros (_ & _ & H). lra.
  - rewrite kelly_at_guard by auto. exists 0.0. split; [reflexivity|].
    split; [intros H; lra|intros (_ & H & _); lra].
  - rewrite kelly_at_guard by auto. exists 0.0. split; [reflexivity|].
    split; [intros H; lra|intros (H & _); lra].
Qed.


(** X2: with the margin and the confidence fixed, a higher risk score
    never gives a larger bet. *)
Theorem kelly_antitone_in_risk (profit_margin confidence r1 r2 : Q) :
  r1 <= r2 ->
  exists b1 b2,
    _calculate_kelly_bet_size profit_margin confidence r1 = Ok b1
    /\ _calculate_kelly_bet_size profit_margin confidence r2 = Ok b2
    /\ b2 <= b1.
Proof.
  intros Hr.
  destruct (Qlt_le_dec 0 profit_margin) as [Hpm|Hpm];
    [destruct (Qlt_le_dec 0 confidence) as [Hc|Hc]|].
  - rewrite !kelly_past_guard by assumption. cbv zeta.
    eexists. eexists. split; [reflexivity|]. split; [reflexivity|].
    set (k := ((1 + profit_margin / 100.0 - 1) * (confidence / 100.0)
               - (1 - confidence / 100.0)) / (1 + profit_margin / 100.0 - 1)).
    pose proof (risk_adjustment_antitone r1 r2 Hr) as Ha.
    pose proof (risk_adjustment_positive r2) as Hp2.
    set (a1 := max 0.1 (1.0 - r1 / 100.0)) in *.
    set (a2 := max 0.1 (1.0 - r2 / 100.0)) in *.
    destruct (Qlt_le_dec k 0) as [Hk|Hk].
    + assert (H1 : k * a1 < 0) by (apply product_negative; lra).
      assert (H2 : k * a2 < 0) by (apply product_negative; lra).
      unfold min, max.
      destruct (0.0 >? k * a1) eqn:E1; [|to_order; lra].
      destruct (0.0 >? k * a2) eqn:E2; [|to_order; lra].
      lra.
    + apply clamp_monotone.
      rewrite !(Qmult_comm k). apply Qmult_le_compat_r; assumption.
  - rewrite !kelly_at_guard by auto. exists 0.0, 0.0.
    split; [reflexivity|split; [reflexivity|lra]].
  - rewrite !kelly_at_guard by auto. exists 0.0, 0.0.
    split; [reflexivity|split; [reflexivity|lra]].
Qed.

(** A risk score of 150 against one of 20, on a bet that is worth
    taking. *)
Lemma kelly_antitone_in_risk_20_150 :
  exists b1 b2,
    _calculate_kelly_bet_size 20 90 20 = Ok b1
    /\ _calculate_kelly_bet_size 20 90 150 = Ok b2
    /\ b2 <= b1.
Proof.
  apply (kelly_antitone_in_risk 20 90 20 150).
  vm_compute. discriminate.
Defined.

End SizerSpec.

(** ** The engine as a whole *)

Module EngineSpec.

Import Py PyFacts Analyzer AnalyzerSpec.

(** What the recommendation of an analysis is, with the score at hand. *)
Lemma analysis_recommendation (opportunity : Opportunity) :
  exists a m c,
    analyze_opportunity knowledge_base opportunity = Ok a
    /\ market a = opp_market opportunity
    /\ profit_margin a = opp_profit_margin opportunity
    /\ confidence a = opp_confidence opportunity
    /\ recommendation a
       = _generate_recommendation knowledge_base
           (opp_profit_margin opportunity) (opp_confidence opportunity)
           (risk_score a)
    /\ ((15.0 < opp_profit_margin opportunity /\ m = 30)
        \/ (opp_profit_margin opportunity <= 15.0
            /\ 8.0 < opp_profit_margin opportunity /\ m = 10)
        \/ (opp_profit_margin opportunity <= 8.0 /\ m = 0))
    /\ ((opp_confidence opportunity < 60.0 /\ c = 25)
        \/ (60.0 <= opp_confidence opportunity
            /\ 85 < opp_confidence opportunity /\ c = -10)
        \/ (60.0 <= opp_confidence opportunity
            /\ opp_confidence opportunity <= 85 /\ c = 0))
    /\ risk_score a == m + c + 15
    /\ 0.0 <= bet_size a <= 0.10.
Proof.
  destruct (analyze_opportunity_returns opportunity)
    as (s & b & Hs & Hb & Ha).
  destruct (run_rules_risk (opp_market opportunity)
              (opp_profit_margin opportunity) (opp_confidence opportunity))
    as (s' & Hs' & m & c & Hm & Hc & Hsum).
  rewrite Hs in Hs'. injection Hs' as <-.
  destruct (kelly_returns (opp_profit_margin opportunity)
              (opp_confidence opportunity) (score_risk s)) as (b' & Hb' & Hr).
  rewrite Hb in Hb'. injection Hb' as <-.
  eexists. exists m, c. split; [exact Ha|].
  cbn [market profit_margin confidence recommendation risk_score bet_size].
  repeat (split; [first [reflexivity | assumption]|]). assumption.
Qed.

(** The recommendation of an analysis, read off the margin and the
    confidence alone. *)
Lemma engine_verdict (opportunity : Opportunity) :
  exists a,
    analyze_opportunity knowledge_base opportunity = Ok a
    /\ (recommendation a = "EXECUTE"
        <-> (5.0 < opp_profit_margin opportunity
             /\ 70.0 < opp_confidence opportunity))
    /\ (recommendation a = "MONITOR"
        <-> (~ (5.0 < opp_profit_margin opportunity
                /\ 70.0 < opp_confidence opportunity)
             /\ 3.0 < opp_profit_margin opportunity
             /\ 60.0 < opp_confidence opportunity))
    /\ (recommendation a = "SKIP"
        <-> ~ (3.0 < opp_profit_margin opportunity
               /\ 60.0 < opp_confidence opportunity)).
Proof.
  destruct (analysis_recommendation opportunity)
    as (a & m & c & Ha & _ & _ & _ & Hrec & Hm & Hc & Hsum & _).
  assert (F1 : 70.0 < opp_confidence opportunity -> risk_score a < 70.0).
  { intros H.
    destruct Hm as [[? ->]|[[? [? ->]]|[? ->]]],
             Hc as [[? ->]|[[? [? ->]]|[? [? ->]]]]; lra. }
  assert (F2 : risk_score a < 80.0).
  { destruct Hm as [[? ->]|[[? [? ->]]|[? ->]]],
             Hc as [[? ->]|[[? [? ->]]|[? [? ->]]]]; lra. }
  clear Hm Hc Hsum.
  exists a. split; [exact Ha|]. rewrite Hrec.
  unfold _generate_recommendation.
  cbn [max_risk_score risk_parameters knowledge_base].
  destruct (opp_profit_margin opportunity >? 5.0) eqn:E1,
           (opp_confidence opportunity >? 70.0) eqn:E2,
           (risk_score a <? 70.0) eqn:E3,
           (opp_profit_margin opportunity >? 3.0) eqn:E4,
           (opp_confidence opportunity >? 60.0) eqn:E5,
           (risk_score a <? 80.0) eqn:E6;
    cbn [andb]; to_order;
    try (exfalso; lra); try (exfalso; specialize (F1 E2); lra);
    (split; [|split]); (split; [intros H; try discriminate H|intros H]);
    try reflexivity; try (exfalso; lra);
    repeat match goal with
           | H : _ /\ _ |- _ => destruct H
           | H : ~ _ |- _ => exfalso; apply H; split; lra
           | |- _ /\ _ => split
           | |- ~ _ => intros [? ?]
           end; try lra.
Qed.

(** X3: under the knowledge base of [__init__] the risk score never
    decides the recommendation: it is EXECUTE exactly when
    [profit_margin > 5.0] and [confidence > 70.0], MONITOR exactly when that
    fails while [profit_margin > 3.0] and [confidence > 60.0], and SKIP
    otherwise. *)
Theorem recommendation_ignores_risk (opportunity : Opportunity) :
  exists a,
    analyze_opportunity knowledge_base opportunity = Ok a
    /\ (recommendation a = "EXECUTE"
        <-> (5.0 < opp_profit_margin opportunity
             /\ 70.0 < opp_confidence opportunity))
    /\ (recommendation a = "MONITOR"
        <-> (~ (5.0 < opp_profit_margin opportunity
                /\ 70.0 < opp_confidence opportunity)
             /\ 3.0 < opp_profit_margin opportunity
             /\ 60.0 < opp_confidence opportunity))
    /\ (recommendation a = "SKIP"
        <-> ~ (3.0 < opp_profit_margin opportunity
               /\ 60.0 < opp_confidence opportunity)).
Proof. apply engine_verdict. Qed.

(** Everything the later proofs need of an analysis the engine returned. *)
Lemma engine_output_facts
  (opportunity : Opportunity) (a : OpportunityAnalysis) :
  analyze_opportunity knowledge_base opportunity = Ok a ->
  market a = opp_market opportunity
  /\ profit_margin a = opp_profit_margin opportunity
  /\ confidence a = opp_confidence opportunity
  /\ 0.0 <= bet_size a <= 0.10
  /\ (recommendation a = "EXECUTE"
      <-> (5.0 < profit_margin a /\ 70.0 < confidence a))
  /\ (recommendation a = "MONITOR"
      <-> (~ (5.0 < profit_margin a /\ 70.0 < confidence a)
           /\ 3.0 < profit_margin a /\ 60.0 < confidence a))
  /\ (recommendation a = "SKIP"
      <-> ~ (3.0 < profit_margin a /\ 60.0 < confidence a))
  /\ exists m c,
       ((15.0 < profit_margin a /\ m = 30)
        \/ (profit_margin a <= 15.0 /\ 8.0 < profit_margin a /\ m = 10)
        \/ (profit_margin a <= 8.0 /\ m = 0))
       /\ ((confidence a < 60.0 /\ c = 25)
           \/ (60.0 <= confidence a /\ 85 < confidence a /\ c = -10)
           \/ (60.0 <= confidence a /\ confidence a <= 85 /\ c = 0))
       /\ risk_score a == m + c + 15.
Proof.
  intros Ha.
  destruct (analysis_recommendation opportunity)
    as (a1 & m & c & Ha1 & Hmk & Hpm & Hcf & _ & Hm & Hc & Hsum & Hbet).
  destruct (engine_verdict opportunity) as (a2 & Ha2 & He & Hmo & Hs).
  rewrite Ha in Ha1, Ha2. injection Ha1 as <-. injection Ha2 as <-.
  rewrite Hpm, Hcf.
  repeat (split; [first [assumption | reflexivity]|]).
  exists m, c. auto.
Qed.

(** The score after rules 1 to 4 does not look at the market. *)
Lemma run_rules_any_market (m1 m2 : string) (profit_margin confidence : Q) :
  run_rules knowledge_base m1 profit_margin confidence
  = run_rules knowledge_base m2 profit_margin confidence.
Proof.
  unfold run_rules. cbv zeta. now rewrite !rule_asset_history_skips.
Qed.

(** X24: under the knowledge base of [__init__] the market text has no
    part in the analysis: two opportunities with the same profit margin
    and confidence get the same risk score, recommendation, bet size and
    reasoning, whatever their markets. *)
Theorem analysis_ignores_market (o1 o2 : Opportunity) :
  opp_profit_margin o1 = opp_profit_margin o2 ->
  opp_confidence o1 = opp_confidence o2 ->
  exists a1 a2,
    analyze_opportunity knowledge_base o1 = Ok a1
    /\ analyze_opportunity knowledge_base o2 = Ok a2
    /\ risk_score a1 = risk_score a2
    /\ recommendation a1 = recommendation a2
    /\ bet_size a1 = bet_size a2
    /\ reasoning a1 = reasoning a2.
Proof.
  intros Hp Hc.
  destruct (analyze_opportunity_returns o1) as (s1 & b1 & Hs1 & Hb1 & Ha1).
  destruct (analyze_opportunity_returns o2) as (s2 & b2 & Hs2 & Hb2 & Ha2).
  rewrite (run_rules_any_market _ (opp_market o2)), Hp, Hc, Hs2 in Hs1.
  injection Hs1 as <-.
  rewrite Hp, Hc, Hb2 in Hb1. injection Hb1 as <-.
  eexists. eexists. split; [exact Ha1|]. split; [exact Ha2|].
  cbn. rewrite Hp, Hc. auto.
Qed.

(** The demo opportunity, were it about Ethereum. *)
Lemma analysis_ignores_market_demo :
  exists a1 a2,
    analyze_opportunity knowledge_base demo_opportunity = Ok a1
    /\ analyze_opportunity knowledge_base
         {| opp_market := "Will Ethereum reach $5,000 by December 31, 2024?";
            opp_profit_margin := 6.2;
            opp_confidence := 85.0 |} = Ok a2
    /\ risk_score a1 = risk_score a2
    /\ reasoning a1 = reasoning a2.
Proof.
  destruct (analysis_ignores_market demo_opportunity
              {| opp_market := "Will Ethereum reach $5,000 by December 31, 2024?";
                 opp_profit_margin := 6.2;
                 opp_confidence := 85.0 |})
    as (a1 & a2 & H1 & H2 & H3 & _ & _ & H4).
  - reflexivity.
  - reflexivity.
  - exists a1, a2. auto.
Defined.

(** X25: the reasoning of every analysis is, in this order: one line on
    the profit margin (high above 15.0, strong above 8.0, moderate
    otherwise), one line on the confidence when it is below 60.0 or above
    85 and none otherwise, the line on volatility, and the line with the
    recommendation; three or four lines in all, none on historical
    accuracy. *)
Theorem reasoning_shape (opportunity : Opportunity) :
  exists a margin_line confidence_lines,
    analyze_opportunity knowledge_base opportunity = Ok a
    /\ reasoning a
       = margin_line :: confidence_lines
         ++ ["High crypto market volatility increases risk";
             "Recommendation: " ++ recommendation a]%string
    /\ ((15.0 < opp_profit_margin opportunity
         /\ margin_line
            = ("High profit margin ("
               ++ format_1f (opp_profit_margin opportunity)
               ++ "%) may indicate pricing error")%string)
        \/ (opp_profit_margin opportunity <= 15.0
            /\ 8.0 < opp_profit_margin opportunity
            /\ margin_line
               = ("Strong profit margin ("
                  ++ format_1f (opp_profit_margin opportunity)
                  ++ "%) detected")%string)
        \/ (opp_profit_margin opportunity <= 8.0
            /\ margin_line
               = ("Moderate profit margin ("
                  ++ format_1f (opp_profit_margin opportunity)
                  ++ "%)")%string))
    /\ ((opp_confidence opportunity < 60.0
         /\ confidence_lines
            = [("Low confidence ("
                ++ format_1f (opp_confidence opportunity)
                ++ "%) in opportunity")%string])
        \/ (60.0 <= opp_confidence opportunity
            /\ 85 < opp_confidence opportunity
            /\ confidence_lines
               = [("High confidence ("
                   ++ format_1f (opp_confidence opportunity)
                   ++ "%) in opportunity")%string])
        \/ (60.0 <= opp_confidence opportunity
            /\ opp_confidence opportunity <= 85
            /\ confidence_lines = []))
    /\ (3 <= length (reasoning a) <= 4)%nat.
Proof.
  destruct (analyze_opportunity_returns opportunity)
    as (s & b & Hs & _ & Ha).
  unfold run_rules in Hs. cbv zeta in Hs.
  rewrite rule_asset_history_skips, bind_Ok, rule_volatility_adds in Hs.
  injection Hs as <-.
  unfold rule_profit_margin, rule_confidence in Ha.
  cbn [max_profit_margin min_confidence risk_parameters knowledge_base] in Ha.
  destruct (opp_profit_margin opportunity >? 15.0) eqn:E1;
    [|destruct (opp_profit_margin opportunity >? 8.0) eqn:E2];
    (destruct (opp_confidence opportunity <? 60.0) eqn:E3;
      [|destruct (opp_confidence opportunity >? 85) eqn:E4]);
    to_order; cbn [score_risk score_reasoning bump note app] in Ha;
    match type of Ha with
    | _ = Ok ?a =>
        exists a;
        lazymatch eval cbn [reasoning] in (reasoning a) with
        | [?m; ?c; _; _] => exists m, [c]
        | [?m; _; _] => exists m, []
        end
    end;
    (split; [exact Ha|]);
    cbn [reasoning recommendation];
    (split; [reflexivity|]);
    (split; [tauto|]); (split; [tauto|]); cbn; lia.
Qed.

End EngineSpec.

(** ** The analyzer agent *)

Module AnalyzerAgentSpec.

Import Py PyFacts Analyzer AnalyzerSpec EngineSpec AnalyzerAgent.

Lemma update_analysis_returns (a : OpportunityAnalysis) :
  exists a',
    _update_analysis knowledge_base a = Ok a'
    /\ from_engine a'
    /\ market a' = market a
    /\ profit_margin a' = profit_margin a
    /\ confidence a' = confidence a * 0.95.
Proof.
  unfold _update_analysis. cbv zeta.
  destruct (analysis_recommendation
              {| opp_market := market a;
                 opp_profit_margin := profit_margin a;
                 opp_confidence := confidence a * 0.95 |})
    as (a' & _ & _ & Ha' & Hm & Hp & Hc & _).
  exists a'. split; [exact Ha'|]. split; [eexists; exact Ha'|].
  cbn in Hm, Hp, Hc. auto.
Qed.

(** An analysis of the engine that is not EXECUTE is not made EXECUTE by
    the decay, and its risk score does not go down. *)
Lemma update_analysis_no_promotion (a a' : OpportunityAnalysis) :
  from_engine a ->
  _update_analysis knowledge_base a = Ok a' ->
  risk_score a <= risk_score a'
  /\ (recommendation a <> "EXECUTE"%string ->
      recommendation a' <> "EXECUTE"%string).
Proof.
  intros [opp Ha] Hu.
  destruct (update_analysis_returns a) as (a2 & Hu2 & [opp' Ha'] & _ & Hp & Hc).
  rewrite Hu in Hu2. injection Hu2 as <-.
  destruct (engine_output_facts opp a Ha)
    as (_ & _ & _ & _ & He & _ & _ & m & c & Hm & Hcc & Hsum).
  destruct (engine_output_facts opp' a' Ha')
    as (_ & _ & _ & _ & He' & _ & _ & m' & c' & Hm' & Hcc' & Hsum').
  rewrite Hp, Hc in *. split.
  - destruct Hm as [[? ->]|[[? [? ->]]|[? ->]]],
             Hcc as [[? ->]|[[? [? ->]]|[? [? ->]]]],
             Hm' as [[? ->]|[[? [? ->]]|[? ->]]],
             Hcc' as [[? ->]|[[? [? ->]]|[? [? ->]]]]; lra.
  - intros Hne Hx. apply Hne. apply He. apply He' in Hx. split; lra.
Qed.

(** The payload sent for an analysis of the engine marked EXECUTE. *)
Lemma execute_payload (st : State) (a : OpportunityAnalysis) :
  from_engine a ->
  recommendation a = "EXECUTE"%string ->
  executable (msg_recommendation (trade_message st a)).
Proof.
  intros [opp Ha] Hx.
  destruct (engine_output_facts opp a Ha)
    as (_ & _ & _ & Hb & He & _ & _ & m & c & Hm & Hc & Hsum).
  apply He in Hx. unfold executable. cbn.
  split; [reflexivity|]. split; [tauto|]. split; [tauto|].
  split; [|exact Hb].
  destruct Hm as [[? ->]|[[? [? ->]]|[? ->]]],
           Hc as [[? ->]|[[? [? ->]]|[? [? ->]]]]; lra.
Qed.

(** The loop over the pending list: it comes to its end, keeps the decayed
    analyses that are MONITOR, and sends the ones that are EXECUTE. *)
Lemma pending_loop_spec (todo updated : list OpportunityAnalysis) (st : State) :
  exists kept new st',
    pending_loop knowledge_base todo updated st = (Ok (updated ++ kept), st')
    /\ (length kept <= length todo)%nat
    /\ Forall (fun a' =>
                 from_engine a' /\ recommendation a' = "MONITOR"%string
                 /\ exists a, In a todo
                              /\ confidence a' = confidence a * 0.95) kept
    /\ agent_address st' = agent_address st
    /\ pending_opportunities st' = pending_opportunities st
    /\ clock st' = clock st
    /\ sent st' = sent st ++ new
    /\ Forall (fun msg => executable (msg_recommendation msg)) new
    /\ (Forall (fun a => from_engine a
                         /\ recommendation a <> "EXECUTE"%string) todo ->
        new = []).
Proof.
  revert updated st. induction todo as [|a rest IH]; intros updated st.
  - exists [], [], st. cbn. rewrite !app_nil_r. repeat split; constructor.
  - destruct (update_analysis_returns a) as (a' & Hu & Heng & _ & _ & Hconf).
    cbn [pending_loop]. rewrite Hu.
    destruct (String.eqb (recommendation a') "EXECUTE") eqn:Ex;
      [|destruct (String.eqb (recommendation a') "MONITOR") eqn:Em].
    + apply String.eqb_eq in Ex.
      destruct (IH updated (send_trade_recommendation a' st))
        as (kept & new & st' & Hl & Hlen & Hk & Haddr & Hpend & Hclk
            & Hsent & Hnew & Hinv).
      exists kept, (trade_message st a' :: new), st'.
      split; [exact Hl|]. split; [cbn; lia|].
      split.
      { eapply Forall_impl; [exact Hk|]. cbn.
        intros x (H1 & H2 & y & Hy & H3). repeat split; auto.
        exists y. split; [now right|assumption]. }
      split; [exact Haddr|]. split; [exact Hpend|]. split; [exact Hclk|].
      split; [rewrite Hsent; cbn; now rewrite <- app_assoc|].
      split; [constructor; [now apply execute_payload|exact Hnew]|].
      intros Hall. exfalso. inversion Hall as [|? ? [Hfe Hne] _]; subst.
      now apply (update_analysis_no_promotion a a' Hfe Hu).
    + apply String.eqb_eq in Em.
      destruct (IH (updated ++ [a']) st)
        as (kept & new & st' & Hl & Hlen & Hk & Haddr & Hpend & Hclk
            & Hsent & Hnew & Hinv).
      exists (a' :: kept), new, st'.
      split; [rewrite Hl, <- app_assoc; reflexivity|]. split; [cbn; lia|].
      split.
      { constructor.
        - repeat split; auto. exists a. split; [now left|assumption].
        - eapply Forall_impl; [exact Hk|]. cbn.
          intros x (H1 & H2 & y & Hy & H3). repeat split; auto.
          exists y. split; [now right|assumption]. }
      repeat (split; [assumption|]).
      intros Hall. apply Hinv. now inversion Hall.
    + destruct (IH updated st)
        as (kept & new & st' & Hl & Hlen & Hk & Haddr & Hpend & Hclk
            & Hsent & Hnew & Hinv).
      exists kept, new, st'.
      split; [exact Hl|]. split; [cbn; lia|].
      split.
      { eapply Forall_impl; [exact Hk|]. cbn.
        intros x (H1 & H2 & y & Hy & H3). repeat split; auto.
        exists y. split; [now right|assumption]. }
      repeat (split; [assumption|]).
      intros Hall. apply Hinv. now inversion Hall.
Qed.

Lemma receive_loop_spec (opportunities : list Opportunity) (st : State) :
  exists new kept,
    receive_loop knowledge_base opportunities st
    = {| agent_address := agent_address st;
         pending_opportunities := pending_opportunities st ++ kept;
         sent := sent st ++ new;
         clock := clock st |}
    /\ Forall (fun msg => msg_type msg = "trade_recommendation"%string
                          /\ msg_from msg = agent_address st
                          /\ executable (msg_recommendation msg)) new
    /\ Forall (fun a => from_engine a
                        /\ recommendation a = "MONITOR"%string) kept
    /\ (length new + length kept <= length opportunities)%nat.
Proof.
  revert st. induction opportunities as [|opp rest IH]; intros st.
  - exists [], []. cbn. rewrite !app_nil_r. destruct st.
    repeat split; constructor.
  - destruct (analysis_recommendation opp) as (a & _ & _ & Ha & _).
    cbn [receive_loop]. rewrite Ha.
    destruct (String.eqb (recommendation a) "EXECUTE") eqn:Ex;
      [|destruct (String.eqb (recommendation a) "MONITOR") eqn:Em].
    + apply String.eqb_eq in Ex.
      destruct (IH (send_trade_recommendation a st))
        as (new & kept & Hl & Hnew & Hkept & Hlen).
      exists (trade_message st a :: new), kept.
      split; [rewrite Hl; cbn; now rewrite <- app_assoc|].
      split.
      { constructor; [|exact Hnew].
        split; [reflexivity|]. split; [reflexivity|].
        apply execute_payload; [eexists|]; eauto. }
      split; [exact Hkept|cbn; lia].
    + apply String.eqb_eq in Em.
      destruct (IH (set_pending (pending_opportunities st ++ [a]) st))
        as (new & kept & Hl & Hnew & Hkept & Hlen).
      exists new, (a :: kept).
      split; [rewrite Hl; cbn; now rewrite <- app_assoc|].
      split; [exact Hnew|].
      split; [constructor; [split; [eexists; eauto|exact Em]|exact Hkept]|].
      cbn. lia.
    + destruct (IH st) as (new & kept & Hl & Hnew & Hkept & Hlen).
      exists new, kept. repeat (split; [assumption|]). cbn. lia.
Qed.


Lemma pending_pass (st : State) :
  Forall (fun a => from_engine a /\ recommendation a = "MONITOR"%string)
         (pending_opportunities st) ->
  exists st',
    process_pending_opportunities knowledge_base st = (Ok tt, st')
    /\ sent st' = sent st
    /\ clock st' = clock st
    /\ (length (pending_opportunities st')
        <= length (pending_opportunities st))%nat
    /\ Forall (fun a => from_engine a /\ recommendation a = "MONITOR"%string)
              (pending_opportunities st')
    /\ agent_address st' = agent_address st.
Proof.
  intros Hinv. unfold process_pending_opportunities.
  destruct (truthy_list (pending_opportunities st)) eqn:Et; cbn [negb].
  - destruct (pending_loop_spec (pending_opportunities st) [] st)
      as (kept & new & st' & Hl & Hlen & Hk & Haddr & _ & Hclk & Hsent & _ & Hno).
    rewrite Hl. cbn [app].
    assert (Hnew : new = []).
    { apply Hno. eapply Forall_impl; [exact Hinv|]. cbn.
      intros x [H1 H2]. split; [assumption|]. rewrite H2. discriminate. }
    subst new. rewrite app_nil_r in Hsent.
    eexists. split; [reflexivity|]. cbn.
    repeat (split; [assumption|]).
    split; [|assumption].
    eapply Forall_impl; [exact Hk|]. cbn. tauto.
  - exists st. repeat split; auto.
Qed.


(** X5: when every pending analysis came from the engine marked MONITOR,
    a pass of [process_pending_opportunities] ends without an exception,
    sends nothing, and leaves a pending list that is no longer and of the
    same kind. *)
Theorem pending_pass_never_sends (st : State) :
  Forall (fun a => from_engine a /\ recommendation a = "MONITOR"%string)
         (pending_opportunities st) ->
  exists st',
    process_pending_opportunities knowledge_base st = (Ok tt, st')
    /\ sent st' = sent st
    /\ clock st' = clock st
    /\ (length (pending_opportunities st')
        <= length (pending_opportunities st))%nat
    /\ Forall (fun a => from_engine a /\ recommendation a = "MONITOR"%string)
              (pending_opportunities st').
Proof.
  intros Hinv.
  destruct (pending_pass st Hinv) as (st' & H1 & H2 & H3 & H4 & H5 & _).
  exists st'. auto.
Qed.

(** The agent that watches one opportunity sends nothing at its pass. *)
Lemma pending_pass_never_sends_watching :
  exists st',
    process_pending_opportunities knowledge_base watching = (Ok tt, st')
    /\ sent st' = sent watching.
Proof.
  destruct (pending_pass_never_sends watching) as (st' & H1 & H2 & _).
  - constructor; [|constructor].
    split; [exists monitor_opportunity; vm_compute; reflexivity|reflexivity].
  - exists st'. split; assumption.
Defined.


(** X7: a message of another type leaves the agent as it was; a message
    of opportunities adds, for at most one opportunity each, either a
    recommendation that is EXECUTE within the thresholds or a pending
    analysis marked MONITOR. *)
Theorem receive_opportunities_sorts (message : Inbound) (st : State) :
  (in_type message <> Some "opportunities_detected"%string ->
   receive_opportunities knowledge_base message st = st)
  /\ exists new kept,
       receive_opportunities knowledge_base message st
       = {| agent_address := agent_address st;
            pending_opportunities := pending_opportunities st ++ kept;
            sent := sent st ++ new;
            clock := clock st |}
       /\ Forall (fun msg => msg_type msg = "trade_recommendation"%string
                             /\ msg_from msg = agent_address st
                             /\ executable (msg_recommendation msg)) new
       /\ Forall (fun a => from_engine a
                           /\ recommendation a = "MONITOR"%string) kept
       /\ (length new + length kept
           <= length (default [] (in_opportunities message)))%nat.
Proof.
  unfold receive_opportunities.
  destruct (bool_decide (in_type message = Some "opportunities_detected"%string))
    eqn:E.
  - apply bool_decide_eq_true in E. split; [intros H; contradiction|].
    apply receive_loop_spec.
  - split; [reflexivity|]. exists [], []. rewrite !app_nil_r.
    destruct st. cbn. repeat split; try constructor. lia.
Qed.

(** One turn of the loop: what stays pending has a confidence above 60
    and at most 0.95 of the bound there was. *)
Lemma turn_decays (bound : Q) (st : State) :
  Forall (fun a => confidence a <= bound) (pending_opportunities st) ->
  Forall (fun a => 60.0 < confidence a /\ confidence a <= bound * 0.95)
         (pending_opportunities (start_analyzing_turn knowledge_base st)).
Proof.
  intros Hb. unfold start_analyzing_turn, process_pending_opportunities.
  destruct (truthy_list (pending_opportunities st)) eqn:Et; cbn [negb].
  - destruct (pending_loop_spec (pending_opportunities st) [] st)
      as (kept & new & st' & Hl & _ & Hk & _).
    rewrite Hl. cbn.
    eapply Forall_impl; [exact Hk|]. cbn.
    intros a' ([opp Ha'] & Hm & a & Hin & Hc).
    destruct (engine_output_facts opp a' Ha')
      as (_ & _ & _ & _ & _ & Hmon & _).
    apply Hmon in Hm. split; [tauto|].
    rewrite Forall_forall in Hb. specialize (Hb a).
    rewrite Hc. assert (confidence a <= bound) by (apply Hb; now apply list_elem_of_In).
    lra.
  - cbn. destruct (pending_opportunities st); [constructor|discriminate].
Qed.

Lemma turns_decay (n : nat) (bound : Q) (st : State) :
  Forall (fun a => confidence a <= bound) (pending_opportunities st) ->
  Forall (fun a => 60.0 < confidence a
                   /\ confidence a <= bound * 0.95 ^ Z.of_nat (S n))
         (pending_opportunities
            (Nat.iter (S n) (start_analyzing_turn knowledge_base) st)).
Proof.
  intros Hb. induction n as [|n IH].
  - cbn [Nat.iter nat_rect]. apply turn_decays in Hb.
    eapply Forall_impl; [exact Hb|]. cbn. intros a [H1 H2].
    split; [assumption|]. exact H2.
  - change (Nat.iter (S (S n)) (start_analyzing_turn knowledge_base) st)
      with (start_analyzing_turn knowledge_base
              (Nat.iter (S n) (start_analyzing_turn knowledge_base) st)).
    assert (Hb' : Forall (fun a => confidence a <= bound * 0.95 ^ Z.of_nat (S n))
                    (pending_opportunities
                       (Nat.iter (S n) (start_analyzing_turn knowledge_base) st))).
    { eapply Forall_impl; [exact IH|]. cbn. tauto. }
    apply turn_decays in Hb'.
    eapply Forall_impl; [exact Hb'|]. cbn. intros a [H1 H2].
    split; [assumption|].
    assert (E : 0.95 ^ Z.of_nat (S (S n)) == 0.95 ^ Z.of_nat (S n) * 0.95).
    { rewrite (Nat2Z.inj_succ (S n)), <- Z.add_1_r.
      rewrite Qpower_plus by nonzero_literal. reflexivity. }
    rewrite E. lra.
Qed.

Lemma pending_empties (n : nat) (bound : Q) (st : State) :
  Forall (fun a => confidence a <= bound) (pending_opportunities st) ->
  bound * 0.95 ^ Z.of_nat (S n) <= 60.0 ->
  pending_opportunities
    (Nat.iter (S n) (start_analyzing_turn knowledge_base) st) = [].
Proof.
  intros Hb Hn. pose proof (turns_decay n bound st Hb) as H.
  destruct (pending_opportunities
              (Nat.iter (S n) (start_analyzing_turn knowledge_base) st))
    as [|a l]; [reflexivity|].
  exfalso. inversion H as [|? ? [H1 H2] _]; subst. lra.
Qed.

(** X8: if every pending analysis has a confidence of at most [bound] and
    [bound * 0.95 ^ n] is at most 60 for some [n >= 1], then after [n]
    turns of the loop nothing is pending any more; with confidences up to
    100, ten turns do. *)
Theorem pending_drains (n : nat) (bound : Q) (st : State) :
  Forall (fun a => confidence a <= bound) (pending_opportunities st) ->
  bound * 0.95 ^ Z.of_nat (S n) <= 60.0 ->
  pending_opportunities
    (Nat.iter (S n) (start_analyzing_turn knowledge_base) st) = [].
Proof. apply pending_empties. Qed.

(** What is kept pending has the confidence of its opportunity. *)
Lemma receive_loop_confidence
  (bound : Q) (opportunities : list Opportunity) (st : State) :
  Forall (fun a => confidence a <= bound) (pending_opportunities st) ->
  Forall (fun o => opp_confidence o <= bound) opportunities ->
  Forall (fun a => confidence a <= bound)
         (pending_opportunities
            (receive_loop knowledge_base opportunities st)).
Proof.
  revert st. induction opportunities as [|opp rest IH]; intros st Hp Ho;
    [exact Hp|].
  destruct (analysis_recommendation opp) as (a & _ & _ & Ha & _ & _ & Hc & _).
  cbn [receive_loop]. rewrite Ha.
  inversion Ho as [|? ? Hopp Hrest]; subst.
  destruct (String.eqb (recommendation a) "EXECUTE");
    [|destruct (String.eqb (recommendation a) "MONITOR")].
  - apply IH; [exact Hp|exact Hrest].
  - apply IH; [|exact Hrest]. cbn. apply Forall_app. split; [exact Hp|].
    constructor; [|constructor]. now rewrite Hc.
  - apply IH; [exact Hp|exact Hrest].
Qed.

(** The agent that watches one opportunity has none left after ten
    turns. *)
Lemma pending_drains_watching :
  pending_opportunities
    (Nat.iter 10 (start_analyzing_turn knowledge_base) watching) = [].
Proof.
  apply (pending_drains 9 100 watching).
  - constructor; [|constructor]. vm_compute. discriminate.
  - vm_compute. discriminate.
Defined.

End AnalyzerAgentSpec.

(** ** More on the detector *)

Module DetectorSpec.

Import Py PyFacts Scanner.

Lemma clamp_0_100 (x : Q) : 0 <= x <= 100 -> min (max x 0) 100 = x.
Proof.
  intros [H0 H1]. unfold min, max.
  destruct (0 >? x) eqn:E; to_order; [lra|].
  destruct (100 <? x) eqn:E'; to_order; [lra|reflexivity].
Qed.

Lemma clamp_above_100 (x : Q) : 100 < x -> min (max x 0) 100 = 100.
Proof.
  intros H. unfold min, max.
  destruct (0 >? x) eqn:E; to_order; [lra|].
  destruct (100 <? x) eqn:E'; to_order; [reflexivity|lra].
Qed.

(** The confidence, when the oracle price is not zero. *)
Lemma calculate_confidence_range
  (market : Market) (price_data : PriceData) (profit_margin : Q) :
  ~ price price_data == 0 ->
  exists confidence,
    calculate_confidence market price_data profit_margin = Ok confidence
    /\ 40 <= confidence <= 100
    /\ (3 < profit_margin -> 50 <= confidence).
Proof.
  intros Hp. unfold calculate_confidence. cbv zeta.
  rewrite truediv_Ok by assumption. rewrite bind_Ok.
  eexists. split; [reflexivity|].
  destruct (default 0 (volume market) >? 1000000) eqn:V1;
    [|destruct (default 0 (volume market) >? 100000) eqn:V2];
  (destruct (profit_margin >? 10) eqn:P1;
    [|destruct (profit_margin >? 5) eqn:P2;
      [|destruct (profit_margin >? 3) eqn:P3]]);
  (destruct (conf price_data / price price_data <? 0.001) eqn:C1;
    [|destruct (conf price_data / price price_data <? 0.01) eqn:C2;
      [|destruct (conf price_data / price price_data >? 0.05) eqn:C3]]);
  clear V1 C1; try clear V2; try clear C2; try clear C3; to_order;
  first [ rewrite clamp_0_100 by lra | rewrite clamp_above_100 by lra ];
  (split; [lra|intros; lra]).
Qed.

(** X9: [calculate_confidence] raises ZeroDivisionError exactly when the
    oracle price is zero; otherwise the score it returns lies between 40
    and 100, and is at least 50 when the profit margin is above 3. *)
Theorem calculate_confidence_between_40_and_100
  (market : Market) (price_data : PriceData) (profit_margin : Q) :
  (price price_data == 0 ->
   calculate_confidence market price_data profit_margin
   = Raise ZeroDivisionError)
  /\ (~ price price_data == 0 ->
      exists confidence,
        calculate_confidence market price_data profit_margin = Ok confidence
        /\ 40 <= confidence <= 100
        /\ (3 < profit_margin -> 50 <= confidence)).
Proof.
  split.
  - intros H. unfold calculate_confidence. cbv zeta.
    now rewrite truediv_Raise.
  - apply calculate_confidence_range.
Qed.

(** What [analyze_market] returns, by the entry of the price table. *)
Lemma analyze_market_cases
  (market : Market) (prices : gmap string PriceData) (now : Q) :
  match asset market ≫= (fun a => prices !! a) with
  | None => analyze_market market prices now = None
  | Some price_data =>
    (target_price market * (1 - odds market / 100 * 0.9) == 0
     \/ price price_data == 0 ->
     analyze_market market prices now = None)
    /\ (~ target_price market * (1 - odds market / 100 * 0.9) == 0 ->
        ~ price price_data == 0 ->
        exists confidence,
          40 <= confidence <= 100
          /\ (3 < (price price_data
                   - target_price market * (1 - odds market / 100 * 0.9))
                  / (target_price market * (1 - odds market / 100 * 0.9))
                  * 100 -> 50 <= confidence)
          /\ analyze_market market prices now
             = Some {| market := question market;
                       market_odds := odds market;
                       oracle_price := price price_data;
                       implied_price :=
                         target_price market * (1 - odds market / 100 * 0.9);
                       profit_margin :=
                         (price price_data
                          - target_price market * (1 - odds market / 100 * 0.9))
                         / (target_price market * (1 - odds market / 100 * 0.9))
                         * 100;
                       confidence := confidence;
                       detected_at := now |})
  end.
Proof.
  unfold analyze_market, analyze_market_body.
  destruct (asset market ≫= (fun a => prices !! a)) as [price_data|];
    [|reflexivity].
  cbv zeta. rewrite (truediv_Ok (odds market) 100) by nonzero_literal.
  rewrite bind_Ok. split.
  - intros [H|H].
    + now rewrite truediv_Raise.
    + destruct (Qeq_bool (target_price market * (1 - odds market / 100 * 0.9)) 0)
        eqn:E.
      * apply Qeq_bool_iff in E. now rewrite truediv_Raise.
      * apply Qeq_bool_neq in E. rewrite truediv_Ok by assumption.
        rewrite bind_Ok. unfold calculate_confidence. cbv zeta.
        now rewrite (truediv_Raise _ _ H).
  - intros Hi Hp. rewrite truediv_Ok by assumption. rewrite bind_Ok.
    destruct (calculate_confidence_range market price_data
                ((price price_data
                  - target_price market * (1 - odds market / 100 * 0.9))
                 / (target_price market * (1 - odds market / 100 * 0.9))
                 * 100) Hp) as (c & Hc & Hr & H50).
    rewrite Hc, bind_Ok. exists c. auto.
Qed.




End DetectorSpec.

(** ** The scan *)

Module ScanSpec.

Import Py PyFacts Scanner DetectorSpec ScannerAgent.

Lemma collect_spec (markets : list Market) (prices : gmap string PriceData)
  (now : Q) :
  Forall (fun o => 3.0 < profit_margin o
                   /\ 50 <= confidence o <= 100
                   /\ detected_at o = now
                   /\ exists market,
                        In market markets
                        /\ analyze_market market prices now = Some o)
         (collect markets prices now)
  /\ (length (collect markets prices now) <= length markets)%nat.
Proof.
  induction markets as [|m rest [IH1 IH2]]; [split; [constructor|auto]|].
  assert (Hrest :
    Forall (fun o => 3.0 < profit_margin o
                     /\ 50 <= confidence o <= 100
                     /\ detected_at o = now
                     /\ exists market,
                          In market (m :: rest)
                          /\ analyze_market market prices now = Some o)
           (collect rest prices now)).
  { eapply Forall_impl; [exact IH1|]. cbn.
    intros o (H1 & H2 & H3 & m' & H4 & H5). repeat split; try tauto.
    exists m'. split; [now right|assumption]. }
  cbn [collect].
  pose proof (analyze_market_cases m prices now) as Hc.
  destruct (analyze_market m prices now) as [o|] eqn:Ho;
    [|split; [exact Hrest|cbn; lia]].
  destruct (profit_margin o >? 3.0) eqn:E;
    [|split; [exact Hrest|cbn; lia]].
  split; [|cbn; lia]. constructor; [|exact Hrest].
  to_order.
  destruct (asset m ≫= (fun a => prices !! a)) as [pd|];
    cbv beta iota in Hc; [|discriminate Hc].
  destruct Hc as [Hnone Hsome].
  destruct (Qeq_bool (target_price m * (1 - odds m / 100 * 0.9)) 0) eqn:Ei;
    [apply Qeq_bool_iff in Ei; discriminate (Hnone (or_introl Ei))|].
  destruct (Qeq_bool (price pd) 0) eqn:Ep;
    [apply Qeq_bool_iff in Ep; discriminate (Hnone (or_intror Ep))|].
  apply Qeq_bool_neq in Ei, Ep.
  destruct (Hsome Ei Ep) as (c & Hr & H50 & Heq).
  injection Heq as ->. cbn in E |- *.
  split; [exact E|]. split; [split; [apply H50; lra|apply Hr]|].
  split; [reflexivity|]. exists m. split; [now left|exact Ho].
Qed.

(** X11: a scan that got no prices, or an empty table, or no markets,
    leaves the agent as it was, the time of the last scan included.
    Otherwise it records the time and sends at most one message, never an
    empty one; every opportunity in it is the detector's result for one of
    the markets, with a profit margin above 3.0 and a confidence between
    50 and 100. *)
Theorem scan_forwards_profitable
  (markets : list Market) (fetched : option (gmap string PriceData))
  (now : Q) (st : State) :
  (fetched = None \/ fetched = Some ∅ \/ markets = [] ->
   scan_markets_over markets fetched now st = st)
  /\ (forall prices, fetched = Some prices -> prices <> ∅ -> markets <> [] ->
      last_scan_time (scan_markets_over markets fetched now st) = now
      /\ (sent (scan_markets_over markets fetched now st) = sent st
          \/ exists opportunities,
               opportunities <> []
               /\ sent (scan_markets_over markets fetched now st)
                  = sent st ++ [{| msg_type := "opportunities_detected";
                                   msg_from := agent_address st;
                                   msg_timestamp := now;
                                   msg_opportunities := opportunities |}]
               /\ (length opportunities <= length markets)%nat
               /\ Forall (fun o =>
                            3.0 < profit_margin o
                            /\ 50 <= confidence o <= 100
                            /\ exists market,
                                 In market markets
                                 /\ analyze_market market prices now = Some o)
                         opportunities)).
Proof.
  split.
  - intros [-> | [-> | ->]]; unfold scan_markets_over; cbn.
    + reflexivity.
    + rewrite bool_decide_eq_true_2 by reflexivity. reflexivity.
    + destruct (truthy_prices fetched); reflexivity.
  - intros prices -> Hne Hm. unfold scan_markets_over. cbn [truthy_prices].
    rewrite bool_decide_eq_false_2 by assumption. cbn [negb].
    assert (Ht : truthy_list markets = true) by (destruct markets; [contradiction|reflexivity]).
    rewrite Ht. cbn [negb]. cbv zeta.
    change (default ∅ (Some prices)) with prices.
    destruct (collect_spec markets prices now) as [Hall Hlen].
    destruct (collect markets prices now) as [|o l] eqn:Ec; cbn [truthy_list].
    + split; [reflexivity|]. left. reflexivity.
    + split; [reflexivity|]. right. exists (o :: l).
      split; [discriminate|]. split; [reflexivity|]. split; [exact Hlen|].
      eapply Forall_impl; [exact Hall|]. cbn. tauto.
Qed.

End ScanSpec.

(** ** More on the execution path *)

Module ExecutionSpec.

Import Py PyFacts Executor ExecutorSpec.

(** The three ways [execute_trade] ends. *)
Lemma execute_trade_cases
  (recommendation : Recommendation) (user_policy : UserPolicy) (w : World) :
  (_check_policy_compliance recommendation user_policy = false
   /\ execute_trade recommendation user_policy w
      = (failed w recommendation "Policy compliance check failed", w))
  \/ (_check_policy_compliance recommendation user_policy = true
      /\ min (rec_bet_size recommendation * bankroll user_policy)
             (max_bet_size user_policy)
         < default 10 (min_bet_size user_policy)
      /\ execute_trade recommendation user_policy w
         = (failed w recommendation "Bet size below minimum threshold", w))
  \/ (_check_policy_compliance recommendation user_policy = true
      /\ default 10 (min_bet_size user_policy)
         <= min (rec_bet_size recommendation * bankroll user_policy)
                (max_bet_size user_policy)
      /\ execute_trade recommendation user_policy w
         = ({| trade_id := "trade_" ++ pretty (int (clock w));
               market := rec_market recommendation;
               bet_size :=
                 min (rec_bet_size recommendation * bankroll user_policy)
                     (max_bet_size user_policy);
               expected_profit :=
                 min (rec_bet_size recommendation * bankroll user_policy)
                     (max_bet_size user_policy)
                 * (rec_profit_margin recommendation / 100);
               tx_hash := Some (mock_tx_hash (clock w + 2));
               status := "executed";
               timestamp := clock w + 2;
               error_message := None |},
            {| clock := clock w + 2;
               events :=
                 (events w ++
                  [VincentExecuting (rec_market recommendation)
                     (min (rec_bet_size recommendation * bankroll user_policy)
                          (max_bet_size user_policy))
                     (min (rec_bet_size recommendation * bankroll user_policy)
                          (max_bet_size user_policy)
                      * rec_profit_margin recommendation / 100)]) ++
                 [VincentExecuted (mock_tx_hash (clock w + 2))] |})).
Proof.
  unfold execute_trade.
  destruct (_check_policy_compliance recommendation user_policy) eqn:Hc;
    cbn [negb]; [|left; auto].
  right. cbv zeta.
  destruct (min (rec_bet_size recommendation * bankroll user_policy)
                (max_bet_size user_policy)
              <? default 10 (min_bet_size user_policy)) eqn:E; to_order.
  - left. auto.
  - right. split; [reflexivity|]. split; [assumption|].
    unfold _execute_via_vincent.
    rewrite !truediv_Ok by nonzero_literal.
    cbn [_check_user_delegation negb]. cbv zeta.
    cbn [clock events emit sleep truthy_tx].
    rewrite mock_tx_hash_truthy. reflexivity.
Qed.




End ExecutionSpec.

(** ** The executor agent *)

Module ExecutorAgentSpec.

Import Py PyFacts Executor ExecutorSpec ExecutionSpec ExecutorAgent.

Lemma dict_get_set {V : Type} (k : string) (v : V) (d : dict V) :
  dict_get k (dict_set k v d) = Some v.
Proof.
  induction d as [|[k' v'] rest IH]; cbn.
  - now rewrite String.eqb_refl.
  - destruct (String.eqb k' k) eqn:E; cbn.
    + now rewrite String.eqb_refl.
    + now rewrite E.
Qed.

Lemma dict_get_set_other {V : Type} (k k0 : string) (v : V) (d : dict V) :
  k0 <> k -> dict_get k0 (dict_set k v d) = dict_get k0 d.
Proof.
  intros Hne. induction d as [|[k' v'] rest IH]; cbn.
  - destruct (String.eqb k k0) eqn:E; [|reflexivity].
    apply String.eqb_eq in E. congruence.
  - destruct (String.eqb k' k) eqn:E; cbn.
    + apply String.eqb_eq in E. subst k'.
      destruct (String.eqb k k0) eqn:E0; [|reflexivity].
      apply String.eqb_eq in E0. congruence.
    + now rewrite IH.
Qed.

Lemma dict_set_length {V : Type} (k : string) (v : V) (d : dict V) :
  length (dict_set k v d)
  = match dict_get k d with
    | Some _ => length d
    | None => S (length d)
    end.
Proof.
  induction d as [|[k' v'] rest IH]; cbn; [reflexivity|].
  destruct (String.eqb k' k); cbn; [reflexivity|].
  rewrite IH. now destruct (dict_get k rest).
Qed.

Lemma dict_set_twice {V : Type} (k : string) (v1 v2 : V) (d : dict V) :
  dict_set k v2 (dict_set k v1 d) = dict_set k v2 d.
Proof.
  induction d as [|[k' v'] rest IH]; cbn.
  - now rewrite String.eqb_refl.
  - destruct (String.eqb k' k) eqn:E; cbn.
    + now rewrite String.eqb_refl.
    + now rewrite E, IH.
Qed.

Lemma dict_set_in {V : Type} (k : string) (v : V) (d : dict V) :
  In v (dict_values (dict_set k v d)).
Proof.
  unfold dict_values. induction d as [|[k' v'] rest IH]; cbn; [now left|].
  destruct (String.eqb k' k); cbn; [now left|now right].
Qed.

(** The identifier of a trade is the second it was asked for. *)
Lemma execute_trade_id
  (recommendation : Recommendation) (user_policy : UserPolicy) (w : World) :
  trade_id (execute_trade recommendation user_policy w).1
  = ("trade_" ++ pretty (int (clock w)))%string.
Proof.
  destruct (execute_trade_cases recommendation user_policy w)
    as [[_ ->]|[(_ & _ & ->)|(_ & _ & ->)]]; reflexivity.
Qed.

Lemma execution_of_id
  (message : Inbound) (user_policy : UserPolicy) (w : World) :
  trade_id (execution_of message user_policy w).1
  = ("trade_" ++ pretty (int (clock w)))%string.
Proof.
  unfold execution_of. destruct (in_recommendation message).
  - apply execute_trade_id.
  - reflexivity.
Qed.

(** What [receive_trade_recommendation] does when it goes through. *)
Lemma receive_handled
  (message : Inbound) (st : State) (w : World) (user_policy : UserPolicy) :
  in_type message = Some "trade_recommendation"%string ->
  user_policies st !! "0x_demo_user_address"%string = Some user_policy ->
  is_active user_policy = true ->
  receive_trade_recommendation message st w
  = ({| user_policies := user_policies st;
        active_trades :=
          dict_set ("trade_" ++ pretty (int (clock w)))%string
                   (execution_of message user_policy w).1
                   (active_trades st) |},
     (execution_of message user_policy w).2).
Proof.
  intros Ht Hp Ha. unfold receive_trade_recommendation.
  rewrite bool_decide_eq_true_2 by assumption. cbv zeta.
  rewrite Hp, Ha. cbn [negb].
  rewrite <- (execution_of_id message user_policy w).
  now destruct (execution_of message user_policy w).
Qed.

(** X14: a message of another type, a missing policy for the demo user or
    a policy that is not active leave the agent and the world as they
    were.  Otherwise the trade is asked of [execute_trade] under that
    policy and its record is stored under its identifier, where it can be
    read back; the records under other identifiers and the policies are
    untouched, and the table grows by one record at most. *)
Theorem receive_trade_recommendation_stores
  (message : Inbound) (st : State) (w : World) :
  ((in_type message <> Some "trade_recommendation"%string
    \/ user_policies st !! "0x_demo_user_address"%string = None
    \/ (exists p, user_policies st !! "0x_demo_user_address"%string = Some p
                  /\ is_active p = false)) ->
   receive_trade_recommendation message st w = (st, w))
  /\ (forall user_policy,
        in_type message = Some "trade_recommendation"%string ->
        user_policies st !! "0x_demo_user_address"%string = Some user_policy ->
        is_active user_policy = true ->
        (receive_trade_recommendation message st w).2
          = (execution_of message user_policy w).2
        /\ user_policies (receive_trade_recommendation message st w).1
           = user_policies st
        /\ dict_get (trade_id (execution_of message user_policy w).1)
             (active_trades (receive_trade_recommendation message st w).1)
           = Some (execution_of message user_policy w).1
        /\ (forall k,
              k <> trade_id (execution_of message user_policy w).1 ->
              dict_get k
                (active_trades (receive_trade_recommendation message st w).1)
              = dict_get k (active_trades st))
        /\ (length (active_trades st)
            <= length (active_trades
                         (receive_trade_recommendation message st w).1)
            <= S (length (active_trades st)))%nat).
Proof.
  split.
  - unfold receive_trade_recommendation.
    intros [H|[H|(p & H & Hp)]].
    + now rewrite bool_decide_eq_false_2.
    + destruct (bool_decide _); [|reflexivity]. cbv zeta. now rewrite H.
    + destruct (bool_decide _); [|reflexivity]. cbv zeta.
      now rewrite H, Hp.
  - intros p Ht Hp Ha. rewrite (receive_handled message st w p Ht Hp Ha).
    cbn [fst snd user_policies active_trades].
    rewrite execution_of_id.
    split; [reflexivity|]. split; [reflexivity|].
    split; [apply dict_get_set|].
    split; [intros k Hk; now apply dict_get_set_other|].
    rewrite dict_set_length.
    destruct (dict_get _ (active_trades st)); lia.
Qed.

(** X15: records are kept under the second at which their handling
    began: of two recommendations taken up at clock readings that fall in
    the same second, only the later one leaves a record, and the table is
    what it would be had the earlier one never come. *)
Theorem same_second_trade_overwrites
  (m1 m2 : Inbound) (st : State) (w1 w2 : World) (user_policy : UserPolicy) :
  in_type m2 = Some "trade_recommendation"%string ->
  user_policies st !! "0x_demo_user_address"%string = Some user_policy ->
  is_active user_policy = true ->
  int (clock w1) = int (clock w2) ->
  active_trades
    (receive_trade_recommendation m2
       (receive_trade_recommendation m1 st w1).1 w2).1
  = active_trades (receive_trade_recommendation m2 st w2).1.
Proof.
  intros Ht Hp Ha Hclk.
  destruct (bool_decide (in_type m1 = Some "trade_recommendation"%string))
    eqn:E1.
  - apply bool_decide_eq_true in E1.
    rewrite (receive_handled m1 st w1 user_policy E1 Hp Ha). cbn [fst].
    rewrite (receive_handled m2 st w2 user_policy Ht Hp Ha).
    set (d := dict_set _ (execution_of m1 user_policy w1).1 (active_trades st)).
    rewrite (receive_handled m2
               {| user_policies := user_policies st; active_trades := d |}
               w2 user_policy Ht Hp Ha).
    subst d. cbn [fst active_trades]. rewrite Hclk. apply dict_set_twice.
  - assert (H1 : receive_trade_recommendation m1 st w1 = (st, w1)).
    { unfold receive_trade_recommendation. now rewrite E1. }
    rewrite H1. reflexivity.
Qed.

(** Two takes on the demo recommendation within one second. *)
Lemma same_second_trade_overwrites_demo :
  active_trades
    (receive_trade_recommendation demo_message
       (receive_trade_recommendation demo_message init demo_world).1
       {| clock := 1730000000.9; events := [] |}).1
  = active_trades
      (receive_trade_recommendation demo_message init
         {| clock := 1730000000.9; events := [] |}).1.
Proof.
  apply (same_second_trade_overwrites demo_message demo_message init
           demo_world {| clock := 1730000000.9; events := [] |} init_policy).
  - reflexivity.
  - vm_compute. reflexivity.
  - reflexivity.
  - vm_compute. reflexivity.
Defined.

(** X16: the history asked for an address without a policy is empty; for
    any address with a policy it is the whole table of trades, so that a
    trade made under the demo user's policy shows in the history of every
    known address. *)
Theorem trade_history_is_shared
  (message : Inbound) (st : State) (w : World)
  (user_policy : UserPolicy) (user_address : string) :
  (user_policies st !! user_address = None ->
   get_trade_history user_address st = [])
  /\ (is_Some (user_policies st !! user_address) ->
      get_trade_history user_address st = dict_values (active_trades st))
  /\ (is_Some (user_policies st !! user_address) ->
      in_type message = Some "trade_recommendation"%string ->
      user_policies st !! "0x_demo_user_address"%string = Some user_policy ->
      is_active user_policy = true ->
      In (execution_of message user_policy w).1
         (get_trade_history user_address
            (receive_trade_recommendation message st w).1)).
Proof.
  unfold get_trade_history. split; [|split].
  - intros H. rewrite bool_decide_eq_false_2; [reflexivity|].
    rewrite H. intros [x Hx]. discriminate Hx.
  - intros H. now rewrite bool_decide_eq_true_2.
  - intros Hu Ht Hp Ha.
    rewrite (receive_handled message st w user_policy Ht Hp Ha).
    cbn [fst user_policies active_trades].
    rewrite bool_decide_eq_true_2 by assumption.
    apply dict_set_in.
Qed.

(** X17: an update for an address without a policy changes nothing.  Once
    the demo user's policy has been updated with [is_active] false, no
    recommendation is executed or recorded any more; the update touches
    no other entry of the policy and no other user's policy. *)
Theorem deactivated_policy_stops_trading
  (message : Inbound) (st : State) (w : World)
  (user_address : string) (policy_update : PolicyUpdate) :
  (user_policies st !! user_address = None ->
   update_user_policy user_address policy_update st = st)
  /\ receive_trade_recommendation message
       (update_user_policy "0x_demo_user_address" deactivate st) w
     = (update_user_policy "0x_demo_user_address" deactivate st, w)
  /\ (forall p,
        user_policies st !! "0x_demo_user_address"%string = Some p ->
        exists p',
          user_policies
            (update_user_policy "0x_demo_user_address" deactivate st)
            !! "0x_demo_user_address"%string = Some p'
          /\ is_active p' = false
          /\ bankroll p' = bankroll p
          /\ max_bet_size p' = max_bet_size p
          /\ min_bet_size p' = min_bet_size p
          /\ min_profit_margin p' = min_profit_margin p
          /\ min_confidence p' = min_confidence p
          /\ max_risk_score p' = max_risk_score p
          /\ approved_markets p' = approved_markets p)
  /\ (forall other,
        other <> user_address ->
        user_policies (update_user_policy user_address policy_update st)
          !! other
        = user_policies st !! other)
  /\ active_trades (update_user_policy user_address policy_update st)
     = active_trades st.
Proof.
  split; [|split; [|split; [|split]]].
  - intros H. unfold update_user_policy. now rewrite H.
  - unfold receive_trade_recommendation, update_user_policy.
    destruct (bool_decide (in_type message = Some "trade_recommendation"%string));
      [|reflexivity].
    cbv zeta.
    destruct (user_policies st !! "0x_demo_user_address"%string) as [p|] eqn:Hp.
    + cbn [user_policies]. rewrite lookup_insert_eq. reflexivity.
    + now rewrite Hp.
  - intros p Hp. unfold update_user_policy. rewrite Hp. cbn [user_policies].
    rewrite lookup_insert_eq. eexists. split; [reflexivity|].
    cbn. repeat split.
  - intros other Hne. unfold update_user_policy.
    destruct (user_policies st !! user_address); [|reflexivity].
    cbn [user_policies]. now rewrite lookup_insert_ne.
  - unfold update_user_policy.
    now destruct (user_policies st !! user_address).
Qed.

End ExecutorAgentSpec.

(** ** From the detector to the execution layer *)

Module PipelineSpec.

Import Py PyFacts.



Lemma any_in_true (approved : list string) (text : string) :
  Executor.any_in approved text = true
  <-> exists m, In m approved /\ Py.occurs_in m text.
Proof.
  unfold Executor.any_in. rewrite existsb_exists.
  split; intros (m & Hm & H); exists m; split; auto;
    now apply contains_spec.
Qed.

(** X19: a recommendation the engine marked EXECUTE passes the three
    thresholds of every policy whose minimum margin is at most 5, whose
    minimum confidence is at most 70 and whose maximum risk is at least
    45 (the defaults and the demo policies among them); such a policy
    accepts it exactly when its list of approved markets is empty or
    absent or one of its entries occurs in the market text. *)
Theorem execute_recommendation_meets_thresholds
  (opportunity : Analyzer.Opportunity) (a : Analyzer.OpportunityAnalysis)
  (st : AnalyzerAgent.State) (user_policy : Executor.UserPolicy) :
  Analyzer.analyze_opportunity Analyzer.knowledge_base opportunity = Ok a ->
  Analyzer.recommendation a = "EXECUTE"%string ->
  default 3.0 (Executor.min_profit_margin user_policy) <= 5.0 ->
  default 60.0 (Executor.min_confidence user_policy) <= 70.0 ->
  45 <= default 70.0 (Executor.max_risk_score user_policy) ->
  Analyzer.risk_score a <= 45
  /\ (Executor._check_policy_compliance
        (AnalyzerAgent.msg_recommendation (AnalyzerAgent.trade_message st a))
        user_policy = true
      <-> (default [] (Executor.approved_markets user_policy) = []
           \/ exists m,
                In m (default [] (Executor.approved_markets user_policy))
                /\ Py.occurs_in m (Analyzer.market a))).
Proof.
  intros Ha Hx Hpm Hcf Hrs.
  destruct (EngineSpec.engine_output_facts opportunity a Ha)
    as (_ & _ & _ & _ & He & _ & _ & m & c & Hm & Hc & Hsum).
  apply He in Hx. destruct Hx as [Hx1 Hx2].
  assert (Hrisk : Analyzer.risk_score a <= 45).
  { destruct Hm as [[? ->]|[[? [? ->]]|[? ->]]],
             Hc as [[? ->]|[[? [? ->]]|[? [? ->]]]]; lra. }
  split; [exact Hrisk|].
  unfold Executor._check_policy_compliance. cbn [AnalyzerAgent.trade_message
    AnalyzerAgent.msg_recommendation Executor.rec_profit_margin
    Executor.rec_confidence Executor.rec_risk_score Executor.rec_market].
  destruct (Analyzer.profit_margin a
              <? default 3.0 (Executor.min_profit_margin user_policy)) eqn:E1;
    [to_order; lra|].
  destruct (Analyzer.confidence a
              <? default 60.0 (Executor.min_confidence user_policy)) eqn:E2;
    [to_order; lra|].
  destruct (Analyzer.risk_score a
              >? default 70.0 (Executor.max_risk_score user_policy)) eqn:E3;
    [to_order; lra|].
  cbv zeta.
  destruct (default [] (Executor.approved_markets user_policy)) as [|x l] eqn:El.
  - cbn. split; auto.
  - cbn [truthy_list andb].
    destruct (Executor.any_in (x :: l) (Analyzer.market a)) eqn:Ea; cbn [negb].
    + split; [intros _|reflexivity]. right. now apply any_in_true.
    + split; [discriminate|]. intros [H|H]; [discriminate H|].
      apply any_in_true in H. congruence.
Qed.

(** The demo analysis meets the thresholds of the policy of
    [ExecutorAgent.__init__]. *)
Lemma execute_recommendation_meets_thresholds_demo :
  Analyzer.risk_score AnalyzerAgent.demo_analysis <= 45
  /\ Executor._check_policy_compliance
       (AnalyzerAgent.msg_recommendation
          (AnalyzerAgent.trade_message AnalyzerAgent.watching
             AnalyzerAgent.demo_analysis))
       ExecutorAgent.init_policy = true.
Proof.
  destruct (execute_recommendation_meets_thresholds Analyzer.demo_opportunity
              AnalyzerAgent.demo_analysis AnalyzerAgent.watching
              ExecutorAgent.init_policy) as [H1 H2].
  - vm_compute. reflexivity.
  - reflexivity.
  - vm_compute. discriminate.
  - vm_compute. discriminate.
  - vm_compute. discriminate.
  - split; [exact H1|]. apply H2. right. exists "Bitcoin"%string.
    split; [now left|].
    exists "Will "%string, " reach $100,000 by December 31, 2024?"%string.
    reflexivity.
Defined.

(** X20: the opportunities a scan forwards, once received by the analyzer
    agent, are either recommended at once or dropped within ten turns of
    its loop: none is pending after the tenth. *)
Theorem forwarded_opportunities_settle
  (markets : list Scanner.Market) (prices : gmap string Scanner.PriceData)
  (now : Q) (address : string) (started : Q) :
  AnalyzerAgent.pending_opportunities
    (Nat.iter 10
       (AnalyzerAgent.start_analyzing_turn Analyzer.knowledge_base)
       (AnalyzerAgent.receive_opportunities Analyzer.knowledge_base
          {| AnalyzerAgent.in_type := Some "opportunities_detected"%string;
             AnalyzerAgent.in_opportunities :=
               Some (map ScannerAgent.as_opportunity
                         (ScannerAgent.collect markets prices now)) |}
          (AnalyzerAgent.init address started)))
  = [].
Proof.
  apply (AnalyzerAgentSpec.pending_empties 9 100).
  - unfold AnalyzerAgent.receive_opportunities. cbn.
    apply AnalyzerAgentSpec.receive_loop_confidence; [constructor|].
    apply Forall_map.
    destruct (ScanSpec.collect_spec markets prices now) as [H _].
    eapply Forall_impl; [exact H|]. cbn. intros o (_ & [_ Hc] & _). exact Hc.
  - vm_compute. discriminate.
Qed.

End PipelineSpec.

(** ** The coordinator *)

Module CoordinatorSpec.

Import Py PyFacts Coordinator.

Lemma waiting_app (q1 q2 : list OpportunityMessage) :
  waiting (q1 ++ q2) = (waiting q1 + waiting q2)%Z.
Proof. induction q1 as [|m q IH]; cbn [waiting app]; lia. Qed.

Lemma analyze_all_spec (opportunities : list Analyzer.Opportunity) (st : State) :
  exists new,
    analyze_all opportunities st
    = {| user_policies := user_policies st;
         opportunity_queue := opportunity_queue st;
         recommendation_queue := recommendation_queue st ++ new;
         metrics :=
           {| opportunities_detected := opportunities_detected (metrics st);
              opportunities_analyzed :=
                opportunities_analyzed (metrics st)
                + Z.of_nat (length opportunities);
              trades_executed := trades_executed (metrics st);
              total_profit := total_profit (metrics st);
              system_uptime := system_uptime (metrics st) |};
         world := world st |}
    /\ (length new <= length opportunities)%nat
    /\ Forall (fun m => AnalyzerAgent.msg_type m = "trade_recommendation"%string
                        /\ AnalyzerAgent.msg_from m = "analyzer"%string
                        /\ AnalyzerAgent.msg_timestamp m
                           = Executor.clock (world st)
                        /\ AnalyzerAgent.executable
                             (AnalyzerAgent.msg_recommendation m)
                        /\ exists opp a,
                             In opp opportunities
                             /\ Analyzer.analyze_opportunity
                                  Analyzer.knowledge_base opp = Ok a
                             /\ Executor.rec_bet_size
                                  (AnalyzerAgent.msg_recommendation m)
                                = Analyzer.bet_size a) new.
Proof.
  revert st. induction opportunities as [|opp rest IH]; intros st.
  - exists []. cbn. rewrite app_nil_r, Z.add_0_r.
    destruct st as [? ? ? [] ?]. repeat split; constructor.
  - destruct (EngineSpec.analysis_recommendation opp)
      as (a & _ & _ & Ha & _).
    cbn [analyze_all]. rewrite Ha. cbv zeta.
    change (length (opp :: rest)) with (S (length rest)).
    rewrite Nat2Z.inj_succ.
    destruct (String.eqb (Analyzer.recommendation a) "EXECUTE") eqn:Ex.
    + apply String.eqb_eq in Ex.
      destruct (IH (put_recommendation a (count_analyzed st)))
        as (new & Hl & Hlen & Hnew).
      eexists (_ :: new). split; [|split].
      * rewrite Hl. cbn. rewrite <- app_assoc. cbn.
        f_equal. f_equal. lia.
      * cbn. lia.
      * constructor.
        -- cbn. repeat (split; [reflexivity|]). split.
           ++ apply (AnalyzerAgentSpec.execute_payload
                       (AnalyzerAgent.init "" 0) a);
                [eexists; exact Ha|exact Ex].
           ++ exists opp, a. split; [now left|]. split; [exact Ha|reflexivity].
        -- eapply Forall_impl; [exact Hnew|]. cbn.
           intros m (H1 & H2 & H3 & H4 & o & b & Ho & Hb & Hbet).
           repeat (split; [assumption|]).
           exists o, b. split; [now right|]. split; assumption.
    + destruct (IH (count_analyzed st)) as (new & Hl & Hlen & Hnew).
      exists new. split; [|split].
      * rewrite Hl. cbn. f_equal. f_equal. lia.
      * cbn. lia.
      * eapply Forall_impl; [exact Hnew|]. cbn.
        intros m (H1 & H2 & H3 & H4 & o & b & Ho & Hb & Hbet).
        repeat (split; [assumption|]).
        exists o, b. split; [now right|]. split; assumption.
Qed.

Lemma default_Some {A : Type} (x y : A) : default x (Some y) = y.
Proof. reflexivity. Qed.

Lemma init_accounted (now : Q) : Accounted (init now).
Proof.
  constructor; cbn; try constructor; try reflexivity; try lia; lra.
Qed.

Lemma scanner_turn_accounted (found : list Analyzer.Opportunity) (st : State) :
  Accounted st -> Accounted (scanner_task_turn found st).
Proof.
  intros [H1 H2 H3 H4 H5 H6 H7]. unfold scanner_task_turn. cbv zeta.
  destruct (truthy_list found); constructor; cbn; try assumption.
  - apply Forall_app. split; [assumption|]. now repeat constructor.
  - rewrite waiting_app. cbn [waiting om_opportunities]. lia.
Qed.

Lemma analyzer_turn_accounted (st : State) :
  Accounted st -> Accounted (default st (analyzer_task_turn st)).
Proof.
  intros Hst. unfold analyzer_task_turn.
  destruct (opportunity_queue st) as [|m q] eqn:Eq; [exact Hst|].
  destruct Hst as [H1 H2 H3 H4 H5 H6 H7]. rewrite Eq in H2, H3.
  inversion H2 as [|? ? Hm Hq]; subst. rewrite Hm, String.eqb_refl.
  rewrite default_Some.
  match goal with
  | |- Accounted (analyze_all ?o ?s) =>
      destruct (analyze_all_spec o s) as (new & Hl & Hlen & Hnew); rewrite Hl
  end.
  cbn [waiting] in H3.
  constructor; cbn; try assumption.
  - lia.
  - rewrite length_app. lia.
  - apply Forall_app. split; [assumption|].
    eapply Forall_impl; [exact Hnew|]. cbn. tauto.
Qed.

Lemma init_policy_lookup :
  ExecutorAgent.user_policies ExecutorAgent.init
    !! "0x_demo_user_address"%string
  = Some ExecutorAgent.init_policy.
Proof. vm_compute. reflexivity. Qed.

Lemma executor_turn_accounted (st : State) :
  Accounted st -> Accounted (default st (snd <$> executor_task_turn st)).
Proof.
  intros Hst. unfold executor_task_turn.
  destruct (recommendation_queue st) as [|m q] eqn:Eq; [exact Hst|].
  destruct Hst as [H1 H2 H3 H4 H5 H6 H7]. rewrite Eq in H4, H5.
  inversion H5 as [|? ? (Hm & _ & Hx) Hq]; subst.
  rewrite Hm, String.eqb_refl. cbv zeta. cbn [user_policies world].
  rewrite H1, init_policy_lookup.
  cbn [length] in H4. rewrite Nat2Z.inj_succ in H4.
  destruct (ExecutionSpec.execute_trade_cases
              (AnalyzerAgent.msg_recommendation m)
              ExecutorAgent.init_policy (world st))
    as [[_ ->]|[(_ & _ & ->)|(_ & Hmin & ->)]];
    cbn [Executor.failed Executor.status];
    [change (String.eqb "failed" "executed") with false
    |change (String.eqb "failed" "executed") with false
    |change (String.eqb "executed" "executed") with true];
    cbn [fmap option_fmap option_map snd]; rewrite default_Some;
    constructor; cbn; try assumption; try reflexivity; try lia.
  - rewrite !length_app. cbn. lia.
  - destruct Hx as (_ & Hpm & _).
    assert (0 <= min (Executor.rec_bet_size (AnalyzerAgent.msg_recommendation m)
                      * 1000.0) 200.0
                 * (Executor.rec_profit_margin
                      (AnalyzerAgent.msg_recommendation m) / 100)).
    { apply Qmult_le_0_compat.
      - cbn in Hmin. lra.
      - inv_literals. lra. }
    lra.
Qed.

(** X21: however the turns of the three tasks follow one another from
    the start, the coordinator's books balance: the opportunities analyzed
    and those still queued add up to the opportunities detected; the
    trades executed and the recommendations still queued never exceed the
    opportunities analyzed; every queued recommendation is marked EXECUTE
    within the engine's thresholds; each executed trade has left exactly
    two events; the total expected profit is not negative; and the
    policies are those of the start. *)
Theorem coordinator_books_balance (inputs : list Input) (now : Q) :
  (opportunities_analyzed (metrics (fold_left step inputs (init now)))
   + waiting (opportunity_queue (fold_left step inputs (init now)))
   = opportunities_detected (metrics (fold_left step inputs (init now))))%Z
  /\ (0 <= trades_executed (metrics (fold_left step inputs (init now))))%Z
  /\ (trades_executed (metrics (fold_left step inputs (init now)))
      + Z.of_nat (length (recommendation_queue
                            (fold_left step inputs (init now))))
      <= opportunities_analyzed (metrics (fold_left step inputs (init now))))%Z
  /\ Forall (fun m => AnalyzerAgent.msg_type m = "trade_recommendation"%string
                      /\ AnalyzerAgent.msg_from m = "analyzer"%string
                      /\ AnalyzerAgent.executable
                           (AnalyzerAgent.msg_recommendation m))
            (recommendation_queue (fold_left step inputs (init now)))
  /\ Z.of_nat (length (Executor.events
                         (world (fold_left step inputs (init now)))))
     = (2 * trades_executed (metrics (fold_left step inputs (init now))))%Z
  /\ 0 <= total_profit (metrics (fold_left step inputs (init now)))
  /\ user_policies (fold_left step inputs (init now))
     = ExecutorAgent.user_policies ExecutorAgent.init.
Proof.
  assert (H : Accounted (fold_left step inputs (init now))).
  { generalize (init_accounted now). generalize (init now).
    induction inputs as [|i rest IH]; intros st Hst; [exact Hst|].
    cbn [fold_left]. apply IH.
    destruct i; cbn [step].
    - now apply scanner_turn_accounted.
    - now apply analyzer_turn_accounted.
    - now apply executor_turn_accounted. }
  destruct H as [H1 H2 H3 [H4 H4'] H5 H6 H7]. auto 10.
Qed.

(** The bet size of an analysis is what the sizer returned. *)
Lemma analysis_bet_size
  (opp : Analyzer.Opportunity) (a : Analyzer.OpportunityAnalysis) :
  Analyzer.analyze_opportunity Analyzer.knowledge_base opp = Ok a ->
  exists risk_score,
    Analyzer._calculate_kelly_bet_size (Analyzer.opp_profit_margin opp)
      (Analyzer.opp_confidence opp) risk_score = Ok (Analyzer.bet_size a).
Proof.
  intros Ha.
  destruct (AnalyzerSpec.analyze_opportunity_returns opp)
    as (s & b & _ & Hb & Ha').
  rewrite Ha in Ha'. injection Ha' as ->. cbn. eauto.
Qed.

(** No opportunity of the simulated scan is worth a bet to the sizer. *)
Lemma simulated_bet_zero
  (opp : Analyzer.Opportunity) (a : Analyzer.OpportunityAnalysis) :
  simulated opp ->
  Analyzer.analyze_opportunity Analyzer.knowledge_base opp = Ok a ->
  Analyzer.bet_size a <= 0.
Proof.
  intros Hsim Ha. destruct (analysis_bet_size opp a Ha) as [r Hr].
  destruct (SizerSpec.kelly_positive (Analyzer.opp_profit_margin opp)
              (Analyzer.opp_confidence opp) r) as (b & Hb & Hpos).
  rewrite Hr in Hb. injection Hb as <-.
  destruct (Qlt_le_dec 0 (Analyzer.bet_size a)) as [H|H]; [|exact H].
  exfalso. apply Hpos in H. destruct H as (Hpm & Hc & Hk).
  assert (Hb8 : Analyzer.opp_profit_margin opp <= 8)
    by (destruct Hsim as [(_ & ? & _)|(_ & ? & _)]; lra).
  assert (Hb90 : Analyzer.opp_confidence opp <= 90)
    by (destruct Hsim as [(_ & _ & ?)|(_ & _ & ?)]; lra).
  assert (Hprod : Analyzer.opp_profit_margin opp * Analyzer.opp_confidence opp
                  <= 8 * Analyzer.opp_confidence opp)
    by (apply Qmult_le_compat_r; lra).
  lra.
Qed.

Lemma init_idle (now : Q) : Idle (init now).
Proof. constructor; cbn; try constructor; reflexivity. Qed.

Lemma scanner_turn_idle (found : list Analyzer.Opportunity) (st : State) :
  Forall simulated found -> Idle st -> Idle (scanner_task_turn found st).
Proof.
  intros Hf [H1 H2 H3 H4 H5 H6]. unfold scanner_task_turn. cbv zeta.
  destruct (truthy_list found); constructor; cbn; try assumption.
  apply Forall_app. split; [assumption|]. now repeat constructor.
Qed.

Lemma analyzer_turn_idle (st : State) :
  Idle st -> Idle (default st (analyzer_task_turn st)).
Proof.
  intros Hst. unfold analyzer_task_turn.
  destruct (opportunity_queue st) as [|m q] eqn:Eq; [exact Hst|].
  destruct Hst as [H1 H2 H3 H4 H5 H6]. rewrite Eq in H2.
  inversion H2 as [|? ? [Hm Hsim] Hq]; subst. rewrite Hm, String.eqb_refl.
  rewrite default_Some.
  match goal with
  | |- Idle (analyze_all ?o ?s) =>
      destruct (analyze_all_spec o s) as (new & Hl & Hlen & Hnew); rewrite Hl
  end.
  constructor; cbn; try assumption.
  apply Forall_app. split; [assumption|].
  eapply Forall_impl; [exact Hnew|]. cbn.
  intros x (Hx1 & _ & _ & _ & opp & a & Hin & Ha & Hbet).
  split; [exact Hx1|]. rewrite Hbet.
  apply (simulated_bet_zero opp a); [|exact Ha].
  rewrite Forall_forall in Hsim. apply Hsim. now apply list_elem_of_In.
Qed.

Lemma executor_turn_idle (st : State) :
  Idle st -> Idle (default st (snd <$> executor_task_turn st)).
Proof.
  intros Hst. unfold executor_task_turn.
  destruct (recommendation_queue st) as [|m q] eqn:Eq; [exact Hst|].
  destruct Hst as [H1 H2 H3 H4 H5 H6]. rewrite Eq in H3.
  inversion H3 as [|? ? (Hm & Hbet) Hq]; subst.
  rewrite Hm, String.eqb_refl. cbv zeta. cbn [user_policies world].
  rewrite H1, init_policy_lookup.
  destruct (ExecutionSpec.execute_trade_cases
              (AnalyzerAgent.msg_recommendation m)
              ExecutorAgent.init_policy (world st))
    as [[_ ->]|[(_ & _ & ->)|(_ & Hmin & ->)]];
    cbn [Executor.failed Executor.status];
    [change (String.eqb "failed" "executed") with false
    |change (String.eqb "failed" "executed") with false
    |exfalso].
  - cbn [fmap option_fmap option_map snd]. rewrite default_Some.
    constructor; cbn; first [assumption | reflexivity].
  - cbn [fmap option_fmap option_map snd]. rewrite default_Some.
    constructor; cbn; first [assumption | reflexivity].
  - cbn in Hmin.
    pose proof (min_upper
                  (Executor.rec_bet_size (AnalyzerAgent.msg_recommendation m)
                   * 1000.0) 200.0) as [_ Hu].
    lra.
Qed.

(** X23: as long as its scans find only what [simulate_scanner_scan] can
    draw, the coordinator never executes a trade, whatever the order of
    the turns: the sizer gives every such opportunity a bet of 0, so each
    recommendation fails at the minimum bet; the count of trades stays 0,
    the expected profit 0.0, and the execution layer sees no event. *)
Theorem simulated_scans_never_trade (inputs : list Input) (now : Q) :
  Forall simulated_input inputs ->
  trades_executed (metrics (fold_left step inputs (init now))) = 0%Z
  /\ total_profit (metrics (fold_left step inputs (init now))) = 0.0
  /\ Executor.events (world (fold_left step inputs (init now))) = []
  /\ Forall (fun m => Executor.rec_bet_size
                        (AnalyzerAgent.msg_recommendation m) <= 0)
            (recommendation_queue (fold_left step inputs (init now))).
Proof.
  intros Hin.
  assert (H : Idle (fold_left step inputs (init now))).
  { generalize (init_idle now). generalize (init now).
    induction inputs as [|i rest IH]; intros st Hst; [exact Hst|].
    inversion Hin as [|? ? Hi Hrest]; subst.
    cbn [fold_left]. apply IH; [exact Hrest|].
    destruct i; cbn [step].
    - now apply scanner_turn_idle.
    - now apply analyzer_turn_idle.
    - now apply executor_turn_idle. }
  destruct H as [H1 H2 H3 H4 H5 H6].
  repeat (split; [assumption|]).
  eapply Forall_impl; [exact H3|]. cbn. tauto.
Qed.

(** A scan that finds the demo opportunity, then the analyzer, then the
    executor: no trade. *)
Lemma simulated_scans_never_trade_demo :
  trades_executed
    (metrics (fold_left step
                [ScannerTurn [Analyzer.demo_opportunity];
                 AnalyzerTurn; ExecutorTurn]
                (init 1730000000))) = 0%Z.
Proof.
  apply (simulated_scans_never_trade
           [ScannerTurn [Analyzer.demo_opportunity];
            AnalyzerTurn; ExecutorTurn] 1730000000).
  constructor; [|repeat constructor].
  cbn. constructor; [|constructor]. left.
  split; [reflexivity|].
  split; (split; vm_compute; discriminate).
Defined.



End CoordinatorSpec.

(** ** The agents on concrete inputs *)

Module AgentExamples.

Import Py.

(** A scan with prices for both assets forwards both mock markets. *)
Example scan_both_markets :
  map Scanner.market
      (ScannerAgent.collect ScannerAgent.fetch_polymarket_data
         ScannerAgent.both_prices 1730000000)
  = ["Will Bitcoin reach $100,000 by December 31, 2024?";
     "Will Ethereum reach $5,000 by December 31, 2024?"]%string.
Proof. vm_compute. reflexivity. Qed.

(** Without prices the scan does not even record its time. *)
Example scan_without_prices :
  ScannerAgent.scan_markets None 1730000030
    {| ScannerAgent.agent_address := "agent1q_scanner_address_here";
       ScannerAgent.last_scan_time := 0;
       ScannerAgent.sent := [] |}
  = {| ScannerAgent.agent_address := "agent1q_scanner_address_here";
       ScannerAgent.last_scan_time := 0;
       ScannerAgent.sent := [] |}.
Proof. reflexivity. Qed.

(** The agent told of a MONITOR and an EXECUTE opportunity keeps the one
    and sends the other. *)
Example watching_state :
  map Analyzer.market
      (AnalyzerAgent.pending_opportunities AnalyzerAgent.watching)
  = ["Will Ethereum reach $5,000 by December 31, 2024?"]%string
  /\ map (fun m => Executor.rec_market (AnalyzerAgent.msg_recommendation m))
         (AnalyzerAgent.sent AnalyzerAgent.watching)
     = ["Will Bitcoin reach $100,000 by December 31, 2024?"]%string.
Proof. split; vm_compute; reflexivity. Qed.

(** A confidence of 80 is still MONITOR after five turns and gone after
    the sixth. *)
Example watching_five_and_six_turns :
  length (AnalyzerAgent.pending_opportunities
            (Nat.iter 5 (AnalyzerAgent.start_analyzing_turn
                           Analyzer.knowledge_base) AnalyzerAgent.watching))
  = 1%nat
  /\ AnalyzerAgent.pending_opportunities
       (Nat.iter 6 (AnalyzerAgent.start_analyzing_turn
                      Analyzer.knowledge_base) AnalyzerAgent.watching)
     = [].
Proof. split; vm_compute; reflexivity. Qed.

(** The executor agent of [__init__] executes the demo recommendation and
    keeps its record; switched off, it keeps nothing. *)
Example executor_agent_demo :
  map fst
      (ExecutorAgent.active_trades
         (ExecutorAgent.receive_trade_recommendation ExecutorAgent.demo_message
            ExecutorAgent.init Executor.demo_world).1)
  = ["trade_1730000000"%string]
  /\ ExecutorAgent.active_trades
       (ExecutorAgent.receive_trade_recommendation ExecutorAgent.demo_message
          (ExecutorAgent.update_user_policy "0x_demo_user_address"
             ExecutorAgent.deactivate ExecutorAgent.init)
          Executor.demo_world).1
     = [].
Proof. split; vm_compute; reflexivity. Qed.

(** A message without a recommendation fails on the first key the filter
    reads. *)
Example executor_agent_no_recommendation :
  map (fun e => (Executor.market e.2, Executor.error_message e.2))
      (ExecutorAgent.active_trades
         (ExecutorAgent.receive_trade_recommendation
            {| ExecutorAgent.in_type := Some "trade_recommendation"%string;
               ExecutorAgent.in_recommendation := None |}
            ExecutorAgent.init Executor.demo_world).1)
  = [("unknown"%string, Some "'profit_margin'"%string)].
Proof. vm_compute. reflexivity. Qed.

(** The coordinator after a scan that found the demo opportunity, a turn
    of the analyzer and a turn of the executor: one analysis, and a trade
    that fails on a sized bet of 0. *)
Example coordinator_demo_round :
  Coordinator.opportunities_analyzed
    (Coordinator.metrics
       (fold_left Coordinator.step
          [Coordinator.AnalyzerTurn; Coordinator.ExecutorTurn]
          Coordinator.after_scan)) = 1%Z
  /\ Coordinator.trades_executed
       (Coordinator.metrics
          (fold_left Coordinator.step
             [Coordinator.AnalyzerTurn; Coordinator.ExecutorTurn]
             Coordinator.after_scan)) = 0%Z
  /\ (Executor.error_message <$>
      (Coordinator.executor_task_turn
         (Coordinator.step Coordinator.after_scan Coordinator.AnalyzerTurn)
       ≫= fst))
     = Some (Some "Bet size below minimum threshold"%string).
Proof. repeat split; vm_compute; reflexivity. Qed.

End AgentExamples.

(** ** The code on concrete inputs *)

Module Examples.

Import Py.

Example format_1f_6_2 : format_1f 6.2 = "6.2"%string.
Proof. vm_compute. reflexivity. Qed.

Example format_1f_negative : format_1f (-0.04) = "-0.0"%string.
Proof. vm_compute. reflexivity. Qed.

Example format_1f_ties_to_even : format_1f 0.25 = "0.2"%string.
Proof. vm_compute. reflexivity. Qed.

Example contains_lowered :
  contains "btc" (lower "Will BTC rise?") = true.
Proof. vm_compute. reflexivity. Qed.

Example contains_is_case_sensitive :
  contains "Bitcoin" "will bitcoin rise?" = false.
Proof. vm_compute. reflexivity. Qed.

Example contains_empty_needle : contains "" "" = true.
Proof. vm_compute. reflexivity. Qed.

Example truediv_by_zero : truediv 1 0 = Raise ZeroDivisionError.
Proof. reflexivity. Qed.

Example max_keeps_first : max 0.1 (1.0 - 2) = 0.1.
Proof. reflexivity. Qed.

(** A negative Kelly fraction is floored at 0. *)
Example kelly_negative_fraction :
  Analyzer._calculate_kelly_bet_size 6.2 85.0 15.0 = Ok 0.0.
Proof. vm_compute. reflexivity. Qed.

(** A risk score above 100 leaves the multiplier at 0.1. *)
Example kelly_risk_above_100 :
  exists r, Analyzer._calculate_kelly_bet_size 20 90 200 = Ok r /\ r == 0.04.
Proof. eexists. split; [vm_compute; reflexivity|reflexivity]. Qed.

(** A large edge is capped at 0.10. *)
Example kelly_capped :
  Analyzer._calculate_kelly_bet_size 50 95 0 = Ok 0.10.
Proof. vm_compute. reflexivity. Qed.

Example kelly_no_margin :
  Analyzer._calculate_kelly_bet_size 0 95 0 = Ok 0.0.
Proof. vm_compute. reflexivity. Qed.

Example recommendation_at_ceiling :
  Analyzer._generate_recommendation Analyzer.knowledge_base 6 75 70 = "MONITOR"%string.
Proof. vm_compute. reflexivity. Qed.

Example recommendation_skip :
  Analyzer._generate_recommendation Analyzer.knowledge_base 6 75 80 = "SKIP"%string.
Proof. vm_compute. reflexivity. Qed.

(** The highest score the rule chain gives. *)
Example risk_score_70 :
  exists a,
    Analyzer.analyze_opportunity Analyzer.knowledge_base
      {| Analyzer.opp_market := "Will Ethereum reach $5,000?";
         Analyzer.opp_profit_margin := 203;
         Analyzer.opp_confidence := 50 |} = Ok a
    /\ Analyzer.risk_score a == 70
    /\ Analyzer.recommendation a = "SKIP"%string.
Proof. eexists. split; [vm_compute; reflexivity|split; reflexivity]. Qed.

(** The lowest score the rule chain gives. *)
Example risk_score_5 :
  exists a,
    Analyzer.analyze_opportunity Analyzer.knowledge_base
      {| Analyzer.opp_market := "Will Ethereum reach $5,000?";
         Analyzer.opp_profit_margin := 6;
         Analyzer.opp_confidence := 90 |} = Ok a
    /\ Analyzer.risk_score a == 5
    /\ Analyzer.reasoning a =
       ["Moderate profit margin (6.0%)";
        "High confidence (90.0%) in opportunity";
        "High crypto market volatility increases risk";
        "Recommendation: EXECUTE"]%string.
Proof. eexists. split; [vm_compute; reflexivity|split; reflexivity]. Qed.

(** A sized bet below the minimum is refused and nothing is executed. *)
Example execute_trade_below_minimum :
  Executor.execute_trade
    {| Executor.rec_market := "Will Bitcoin reach $100,000 by December 31, 2024?";
       Executor.rec_action := "EXECUTE";
       Executor.rec_bet_size := 0.005;
       Executor.rec_profit_margin := 6.2;
       Executor.rec_confidence := 85.0;
       Executor.rec_risk_score := 45.0;
       Executor.rec_reasoning := [] |}
    Executor.demo_policy Executor.demo_world
  = (Executor.failed Executor.demo_world
       {| Executor.rec_market := "Will Bitcoin reach $100,000 by December 31, 2024?";
          Executor.rec_action := "EXECUTE";
          Executor.rec_bet_size := 0.005;
          Executor.rec_profit_margin := 6.2;
          Executor.rec_confidence := 85.0;
          Executor.rec_risk_score := 45.0;
          Executor.rec_reasoning := [] |}
       "Bet size below minimum threshold",
     Executor.demo_world).
Proof. vm_compute. reflexivity. Qed.

Example execute_trade_demo_events :
  Executor.events
    (Executor.execute_trade Executor.demo_recommendation
       Executor.demo_policy Executor.demo_world).2
  = [Executor.VincentExecuting
       "Will Bitcoin reach $100,000 by December 31, 2024?"
       (150000 # 1000) (9300000 # 1000000);
     Executor.VincentExecuted
       "0x671db482671db483671db484671db485671db486671db487671db488671db489"].
Proof. vm_compute. reflexivity. Qed.

Example policy_rejects_unapproved_market :
  Executor._check_policy_compliance
    {| Executor.rec_market := "Will bitcoin reach $100,000?";
       Executor.rec_action := "EXECUTE";
       Executor.rec_bet_size := 0.05;
       Executor.rec_profit_margin := 6.2;
       Executor.rec_confidence := 85.0;
       Executor.rec_risk_score := 45.0;
       Executor.rec_reasoning := [] |}
    Executor.demo_policy = false.
Proof. vm_compute. reflexivity. Qed.

Example detector_without_price :
  Scanner.analyze_market Scanner.btc_market ∅ 1730000000 = None.
Proof. vm_compute. reflexivity. Qed.

End Examples.
